(** * EventStateMachine: a shallow embedding of the state/timeout/callback engine

    The development follows [src/EventStateMachine.cpp] and the header that
    declares [TimerImplementation], [SimpleArray], [TimeoutInfo],
    [StateDefinition] and the class [EventStateMachine].

    - [uint8_t] values (state ids, timeout indices) are [N]; the narrowing
      conversions from [size_t] are written out with [to_uint8].
    - [unsigned long] values (durations, [millis()]) are [Z] in [0, 2^32),
      subtraction wraps with [wrap32].
    - function pointers are addresses ([N]); [nullptr] is [0].
    - containers ([std::vector] or [SimpleArray<T, 8>]) are lists, indexed
      with stdpp's lookup, insert and delete.
    - the three build configurations are the constructors of [Platform].
    - callbacks are application code: their effect on the world is the
      section variable [invoke]; every call is also recorded in a trace.
    - loops whose body runs a callback re-read their container at every
      iteration, as the source does, and therefore take fuel.
    - one thread of control: a Ticker expiry on ESP is a call of
      [onTimeoutStatic] between two operations, not an interrupt inside one.
    - the destructor is not part of the development. *)

From stdpp Require Import base numbers list option.

(** ** Machine integers and function pointers *)

Definition uint8_t := N.
Definition fnptr := N.
Definition nullptr : fnptr := 0%N.

Definition to_uint8 (n : nat) : uint8_t := (N.of_nat n mod 256)%N.
Definition wrap32 (z : Z) : Z := (z mod 2 ^ 32)%Z.

(** ** Build configurations *)

Inductive Platform := ESP | RP2040 | Arduino.

(** [defined(ESP8266) || defined(ESP32)] *)
Definition is_esp (p : Platform) : bool :=
  match p with ESP => true | _ => false end.

(** [defined(ESP8266) || defined(ESP32) || defined(ARDUINO_ARCH_RP2040)]:
    [CallbackContainer] is [std::vector]; otherwise it is [SimpleArray]. *)
Definition has_vector (p : Platform) : bool :=
  match p with Arduino => false | _ => true end.

(** ** Results: a value, exhausted fuel, or undefined behaviour
    (an access outside an array) *)

Inductive result (A : Type) : Type :=
| Ok (a : A)
| OutOfFuel
| Undefined.
Arguments Ok {A} a.
Arguments OutOfFuel {A}.
Arguments Undefined {A}.

Definition bind {A B : Type} (m : result A) (k : A -> result B) : result B :=
  match m with
  | Ok a => k a
  | OutOfFuel => OutOfFuel
  | Undefined => Undefined
  end.

Notation "'do' x <- m ; k" := (bind m (fun x => k))
  (at level 10, x pattern, m at level 100, k at level 200).

Definition of_option {A : Type} (o : option A) : result A :=
  match o with Some a => Ok a | None => Undefined end.

(** ** Data model *)

(** [TimerImplementation] is [Ticker] on ESP (an external one-shot timer,
    kept here as the period and the captured [state, index] of the lambda it
    was armed with) and the millis()-based class of the header elsewhere. *)
Inductive TimerImplementation :=
| Ticker (armed : option (Z * (uint8_t * nat)))
| PollTimer (startTime : Z) (period : Z) (running : bool) (func : fnptr).

Record TimeoutInfo := mkTimeoutInfo {
  duration : Z;
  callback : fnptr;
  timer : TimerImplementation;
  active : bool;
  stateIndex : uint8_t;
  timeoutIndex : uint8_t
}.

Record StateDefinition := mkStateDefinition {
  timeouts : list TimeoutInfo;
  onEnters : list fnptr;
  onStates : list fnptr;
  onExits : list fnptr
}.

Record EventStateMachine := mkEventStateMachine {
  currentState : uint8_t;
  previousState : uint8_t;
  stateChanged : bool;
  states : list StateDefinition;
  numStates : uint8_t;
  stateEnteredTime : Z;
  debugEnabled : bool;
  beforeStateChangeHandlers : list fnptr;
  afterStateChangeHandlers : list fnptr
}.

(** What the engine does to its collaborators, in program order. *)
Inductive Event :=
| Call (f : fnptr) (args : list uint8_t)
| Detach (state : uint8_t) (index : nat)
| OnceMs (state : uint8_t) (index : nat) (ms : Z).

(** Lines written to [Serial] when [debugEnabled] is set. *)
Inductive DebugLine :=
| TimeoutTriggered (state index : uint8_t)
| TimeoutSet (state : uint8_t) (index : nat) (ms : Z).

Record World := mkWorld {
  machine : EventStateMachine;
  millis : Z;
  trace : list Event;
  serial : list DebugLine
}.

(** ** Field updates *)

Definition with_machine (f : EventStateMachine -> EventStateMachine) (w : World) : World :=
  mkWorld (f (machine w)) (millis w) (trace w) (serial w).

Definition emit (e : Event) (w : World) : World :=
  mkWorld (machine w) (millis w) (trace w ++ [e]) (serial w).

Definition emits (es : list Event) (w : World) : World :=
  mkWorld (machine w) (millis w) (trace w ++ es) (serial w).

Definition print (d : DebugLine) (w : World) : World :=
  mkWorld (machine w) (millis w) (trace w) (serial w ++ [d]).

Definition advance (ms : Z) (w : World) : World :=
  mkWorld (machine w) (wrap32 (millis w + ms)) (trace w) (serial w).

Definition set_states (sts : list StateDefinition) (m : EventStateMachine) : EventStateMachine :=
  mkEventStateMachine (currentState m) (previousState m) (stateChanged m) sts
    (numStates m) (stateEnteredTime m) (debugEnabled m)
    (beforeStateChangeHandlers m) (afterStateChangeHandlers m).

Definition set_stateChanged (b : bool) (m : EventStateMachine) : EventStateMachine :=
  mkEventStateMachine (currentState m) (previousState m) b (states m)
    (numStates m) (stateEnteredTime m) (debugEnabled m)
    (beforeStateChangeHandlers m) (afterStateChangeHandlers m).

Definition set_before (l : list fnptr) (m : EventStateMachine) : EventStateMachine :=
  mkEventStateMachine (currentState m) (previousState m) (stateChanged m) (states m)
    (numStates m) (stateEnteredTime m) (debugEnabled m)
    l (afterStateChangeHandlers m).

Definition set_after (l : list fnptr) (m : EventStateMachine) : EventStateMachine :=
  mkEventStateMachine (currentState m) (previousState m) (stateChanged m) (states m)
    (numStates m) (stateEnteredTime m) (debugEnabled m)
    (beforeStateChangeHandlers m) l.

Definition set_debugEnabled (b : bool) (m : EventStateMachine) : EventStateMachine :=
  mkEventStateMachine (currentState m) (previousState m) (stateChanged m) (states m)
    (numStates m) (stateEnteredTime m) b
    (beforeStateChangeHandlers m) (afterStateChangeHandlers m).

(** Lines 266-269 of [setState]. *)
Definition enter_state (newState : uint8_t) (now : Z) (m : EventStateMachine) : EventStateMachine :=
  mkEventStateMachine newState (currentState m) true (states m)
    (numStates m) now (debugEnabled m)
    (beforeStateChangeHandlers m) (afterStateChangeHandlers m).

Definition set_timeouts (l : list TimeoutInfo) (d : StateDefinition) : StateDefinition :=
  mkStateDefinition l (onEnters d) (onStates d) (onExits d).
Definition set_onEnters (l : list fnptr) (d : StateDefinition) : StateDefinition :=
  mkStateDefinition (timeouts d) l (onStates d) (onExits d).
Definition set_onStates (l : list fnptr) (d : StateDefinition) : StateDefinition :=
  mkStateDefinition (timeouts d) (onEnters d) l (onExits d).
Definition set_onExits (l : list fnptr) (d : StateDefinition) : StateDefinition :=
  mkStateDefinition (timeouts d) (onEnters d) (onStates d) l.

Definition set_timer (t : TimerImplementation) (ti : TimeoutInfo) : TimeoutInfo :=
  mkTimeoutInfo (duration ti) (callback ti) t (active ti) (stateIndex ti) (timeoutIndex ti).
Definition set_active (b : bool) (ti : TimeoutInfo) : TimeoutInfo :=
  mkTimeoutInfo (duration ti) (callback ti) (timer ti) b (stateIndex ti) (timeoutIndex ti).

(** [states[s]]: outside the array the access is undefined. *)
Definition state_at (s : uint8_t) (w : World) : result StateDefinition :=
  of_option (states (machine w) !! N.to_nat s).

(** [states[s] = d] *)
Definition put_state (s : uint8_t) (d : StateDefinition) (w : World) : World :=
  with_machine (fun m => set_states (<[N.to_nat s := d]> (states m)) m) w.

(** [states[s].timeouts[i] = ti] *)
Definition put_timeout (s : uint8_t) (i : nat) (ti : TimeoutInfo) (w : World) : result World :=
  do d <- state_at s w;
  Ok (put_state s (set_timeouts (<[i := ti]> (timeouts d)) d) w).

(** ** The engine *)

Definition MAX_SIZE : nat := 8.

Section Engine.

Variable platform : Platform.

(** The body of the application function at address [f], applied to [args]. *)
Variable invoke : fnptr -> list uint8_t -> World -> result World.

Definition call (f : fnptr) (args : list uint8_t) (w : World) : result World :=
  invoke f args (emit (Call f args) w).

(** [for (size_t i = 0; i < size(); i++) body(i)], the bound re-read at
    every iteration. *)
Fixpoint for_loop (fuel : nat) (size : World -> result nat)
    (body : nat -> World -> result World) (i : nat) (w : World) : result World :=
  match fuel with
  | O => OutOfFuel
  | S fuel' =>
      do n <- size w;
      if decide (i < n)
      then do w' <- body i w; for_loop fuel' size body (S i) w'
      else Ok w
  end.

(** *** Containers *)

(** [std::vector::push_back], or [SimpleArray::push_back], which drops the
    item when the array is full. *)
Definition push_back {T : Type} (c : list T) (item : T) : list T :=
  if has_vector platform then c ++ [item]
  else if decide (length c < MAX_SIZE) then c ++ [item] else c.

(** [c.erase(c.begin() + i)], or [c.erase(&c[i])] of [SimpleArray]. *)
Definition erase {T : Type} (i : nat) (c : list T) : list T := delete i c.

(** *** Timers *)

(** A default-constructed timer. The millis()-based class leaves
    [startTime] and [duration] uninitialised; they are [0] here and never
    read while the timer is not running. *)
Definition new_timer : TimerImplementation :=
  if is_esp platform then Ticker None else PollTimer 0 0 false nullptr.

Definition detach (t : TimerImplementation) : TimerImplementation :=
  match t with
  | Ticker _ => Ticker None
  | PollTimer startTime period _ func => PollTimer startTime period false func
  end.

(** [timer.detach(); active = false] *)
Definition cancel (ti : TimeoutInfo) : TimeoutInfo :=
  set_active false (set_timer (detach (timer ti)) ti).

(** The body of the arming loop of [setState], for entry [i] of [state]. *)
Definition arm (state : uint8_t) (now : Z) (i : nat) (ti : TimeoutInfo) : TimeoutInfo :=
  if is_esp platform then
    mkTimeoutInfo (duration ti) (callback ti)
      (Ticker (Some (duration ti, (state, i)))) true
      (stateIndex ti) (timeoutIndex ti)
  else
    mkTimeoutInfo (duration ti) (callback ti)
      (PollTimer now (duration ti) true nullptr) true
      state (to_uint8 i).

(** [TimerImplementation::update] of the timer of [states[s].timeouts[i]]. *)
Definition TimerImplementation_update (s : uint8_t) (i : nat) (w : World)
    : result (bool * World) :=
  do d <- state_at s w;
  do ti <- of_option (timeouts d !! i);
  match timer ti with
  | PollTimer startTime period running func =>
      if running && bool_decide (period <= wrap32 (millis w - startTime))%Z then
        do w1 <- put_timeout s i (set_timer (PollTimer startTime period false func) ti) w;
        if (func =? nullptr)%N then Ok (false, w1)
        else do w2 <- call func [] w1; Ok (true, w2)
      else Ok (false, w)
  | Ticker _ => Ok (false, w)
  end.

(** *** EventStateMachine *)

Definition isValidState (state : uint8_t) (w : World) : bool :=
  (state <? numStates (machine w))%N.

(** The constructor, run when [millis()] reads [now]. It has no check on
    [numberOfStates]: [new StateDefinition[0]] is a valid empty array. *)
Definition construct (numberOfStates : uint8_t) (now : Z) : result World :=
  Ok (mkWorld
        (mkEventStateMachine 0%N 0%N true
           (replicate (N.to_nat numberOfStates) (mkStateDefinition [] [] [] []))
           numberOfStates now false [] [])
        now [] []).

Definition onTimeout (state timeoutIndex : uint8_t) (w : World) : result World :=
  if (currentState (machine w) =? state)%N then
    do d <- state_at state w;
    if decide (N.to_nat timeoutIndex < length (timeouts d)) then
      let w1 := if debugEnabled (machine w)
                then print (TimeoutTriggered state timeoutIndex) w else w in
      do ti <- of_option (timeouts d !! N.to_nat timeoutIndex);
      do w2 <- put_timeout state (N.to_nat timeoutIndex) (set_active false ti) w1;
      call (callback ti) [currentState (machine w2); previousState (machine w2)] w2
    else Ok w
  else Ok w.

(** [instance] is the one machine of the world. *)
Definition onTimeoutStatic (state timeoutIndex : uint8_t) (w : World) : result World :=
  onTimeout state timeoutIndex w.

Definition addTimeout (state : uint8_t) (timeout : Z) (onTimeout : fnptr) (w : World)
    : result (bool * World) :=
  if negb (isValidState state w) || (onTimeout =? nullptr)%N then Ok (false, w)
  else
    do d <- state_at state w;
    let timeoutInfo :=
      mkTimeoutInfo timeout onTimeout new_timer false
        (if is_esp platform then 0%N else state)
        (if is_esp platform then 0%N else to_uint8 (length (timeouts d))) in
    Ok (true, put_state state (set_timeouts (push_back (timeouts d) timeoutInfo) d) w).

Definition addOnEnter (state : uint8_t) (onEnter : fnptr) (w : World) : result (bool * World) :=
  if negb (isValidState state w) || (onEnter =? nullptr)%N then Ok (false, w)
  else
    do d <- state_at state w;
    Ok (true, put_state state (set_onEnters (push_back (onEnters d) onEnter) d) w).

Definition addOnState (state : uint8_t) (onState : fnptr) (w : World) : result (bool * World) :=
  if negb (isValidState state w) || (onState =? nullptr)%N then Ok (false, w)
  else
    do d <- state_at state w;
    Ok (true, put_state state (set_onStates (push_back (onStates d) onState) d) w).

Definition addOnExit (state : uint8_t) (onExit : fnptr) (w : World) : result (bool * World) :=
  if negb (isValidState state w) || (onExit =? nullptr)%N then Ok (false, w)
  else
    do d <- state_at state w;
    Ok (true, put_state state (set_onExits (push_back (onExits d) onExit) d) w).

Definition configureState (state : uint8_t) (timeout : Z)
    (onEnter onState onExit onTimeout : fnptr) (w : World) : result World :=
  if negb (isValidState state w) then Ok w
  else
    do w1 <- (if (onEnter =? nullptr)%N then Ok w
              else do r <- addOnEnter state onEnter w; Ok (snd r));
    do w2 <- (if (onState =? nullptr)%N then Ok w1
              else do r <- addOnState state onState w1; Ok (snd r));
    do w3 <- (if (onExit =? nullptr)%N then Ok w2
              else do r <- addOnExit state onExit w2; Ok (snd r));
    if bool_decide (0 < timeout)%Z && negb (onTimeout =? nullptr)%N
    then do r <- addTimeout state timeout onTimeout w3; Ok (snd r)
    else Ok w3.

(** The scan of the [remove*] functions: the first index whose entry
    matches, then one [erase] there. *)
Definition removeTimeout (state : uint8_t) (timeout : Z) (w : World) : result (bool * World) :=
  if negb (isValidState state w) then Ok (false, w)
  else
    do d <- state_at state w;
    match list_find (fun ti => duration ti = timeout) (timeouts d) with
    | Some (i, ti) =>
        let cancelled := <[i := cancel ti]> (timeouts d) in
        Ok (true, emit (Detach state i)
                    (put_state state (set_timeouts (erase i cancelled) d) w))
    | None => Ok (false, w)
    end.

Definition removeOnEnter (state : uint8_t) (onEnter : fnptr) (w : World) : result (bool * World) :=
  if negb (isValidState state w) then Ok (false, w)
  else
    do d <- state_at state w;
    match list_find (fun f => f = onEnter) (onEnters d) with
    | Some (i, _) => Ok (true, put_state state (set_onEnters (erase i (onEnters d)) d) w)
    | None => Ok (false, w)
    end.

Definition removeOnState (state : uint8_t) (onState : fnptr) (w : World) : result (bool * World) :=
  if negb (isValidState state w) then Ok (false, w)
  else
    do d <- state_at state w;
    match list_find (fun f => f = onState) (onStates d) with
    | Some (i, _) => Ok (true, put_state state (set_onStates (erase i (onStates d)) d) w)
    | None => Ok (false, w)
    end.

Definition removeOnExit (state : uint8_t) (onExit : fnptr) (w : World) : result (bool * World) :=
  if negb (isValidState state w) then Ok (false, w)
  else
    do d <- state_at state w;
    match list_find (fun f => f = onExit) (onExits d) with
    | Some (i, _) => Ok (true, put_state state (set_onExits (erase i (onExits d)) d) w)
    | None => Ok (false, w)
    end.

Definition addBeforeStateChangeHandler (handler : fnptr) (w : World) : World :=
  if (handler =? nullptr)%N then w
  else with_machine
         (fun m => set_before (push_back (beforeStateChangeHandlers m) handler) m) w.

Definition addAfterStateChangeHandler (handler : fnptr) (w : World) : World :=
  if (handler =? nullptr)%N then w
  else with_machine
         (fun m => set_after (push_back (afterStateChangeHandlers m) handler) m) w.

Definition removeBeforeStateChangeHandler (handler : fnptr) (w : World) : bool * World :=
  match list_find (fun f => f = handler) (beforeStateChangeHandlers (machine w)) with
  | Some (i, _) =>
      (true, with_machine
               (fun m => set_before (erase i (beforeStateChangeHandlers m)) m) w)
  | None => (false, w)
  end.

Definition removeAfterStateChangeHandler (handler : fnptr) (w : World) : bool * World :=
  match list_find (fun f => f = handler) (afterStateChangeHandlers (machine w)) with
  | Some (i, _) =>
      (true, with_machine
               (fun m => set_after (erase i (afterStateChangeHandlers m)) m) w)
  | None => (false, w)
  end.

Definition setDebug (enable : bool) (w : World) : World :=
  with_machine (set_debugEnabled enable) w.

(** The phases of [setState], each one loop of the source. *)

Definition run_before (fuel : nat) (newState : uint8_t) (w : World) : result World :=
  for_loop fuel
    (fun w => Ok (length (beforeStateChangeHandlers (machine w))))
    (fun i w =>
       do h <- of_option (beforeStateChangeHandlers (machine w) !! i);
       call h [currentState (machine w); newState] w)
    0 w.

(** The range-for over [states[currentState].timeouts]: no callback runs
    inside it. *)
Definition stop_timers (w : World) : result World :=
  let s := currentState (machine w) in
  do d <- state_at s w;
  Ok (emits (imap (fun i _ => Detach s i) (timeouts d))
        (put_state s (set_timeouts (cancel <$> timeouts d) d) w)).

Definition run_exits (fuel : nat) (newState : uint8_t) (w : World) : result World :=
  for_loop fuel
    (fun w => do d <- state_at (currentState (machine w)) w; Ok (length (onExits d)))
    (fun i w =>
       do d <- state_at (currentState (machine w)) w;
       do f <- of_option (onExits d !! i);
       call f [currentState (machine w); newState] w)
    0 w.

Definition run_enters (fuel : nat) (w : World) : result World :=
  for_loop fuel
    (fun w => do d <- state_at (currentState (machine w)) w; Ok (length (onEnters d)))
    (fun i w =>
       do d <- state_at (currentState (machine w)) w;
       do f <- of_option (onEnters d !! i);
       call f [currentState (machine w); previousState (machine w)] w)
    0 w.

(** The arming loop: no callback runs inside it, so the list, the current
    state and the clock are those of its start. *)
Definition start_timers (w : World) : result World :=
  let s := currentState (machine w) in
  do d <- state_at s w;
  let w1 := put_state s (set_timeouts (imap (arm s (millis w)) (timeouts d)) d) w in
  let w2 := emits (imap (fun i ti => OnceMs s i (duration ti)) (timeouts d)) w1 in
  Ok (if debugEnabled (machine w)
      then mkWorld (machine w2) (millis w2) (trace w2)
             (serial w2 ++ imap (fun i ti => TimeoutSet s i (duration ti)) (timeouts d))
      else w2).

Definition run_after (fuel : nat) (w : World) : result World :=
  for_loop fuel
    (fun w => Ok (length (afterStateChangeHandlers (machine w))))
    (fun i w =>
       do h <- of_option (afterStateChangeHandlers (machine w) !! i);
       call h [previousState (machine w); currentState (machine w)] w)
    0 w.

Definition setState (fuel : nat) (newState : uint8_t) (w : World) : result World :=
  if negb (isValidState newState w) then Ok w
  else if (newState =? currentState (machine w))%N then Ok w
  else
    do w1 <- run_before fuel newState w;
    do w2 <- stop_timers w1;
    do w3 <- run_exits fuel newState w2;
    let w4 := with_machine (enter_state newState (millis w3)) w3 in
    do w5 <- run_enters fuel w4;
    do w6 <- start_timers w5;
    run_after fuel w6.

(** The timer scan of [update], compiled on the platforms without Ticker. *)
Definition poll_timers (fuel : nat) (w : World) : result World :=
  for_loop fuel
    (fun w => do d <- state_at (currentState (machine w)) w; Ok (length (timeouts d)))
    (fun i w =>
       let s := currentState (machine w) in
       do d <- state_at s w;
       do ti <- of_option (timeouts d !! i);
       if active ti then
         do r <- TimerImplementation_update s i w;
         if fst r
         then onTimeout (currentState (machine (snd r))) (to_uint8 i) (snd r)
         else Ok (snd r)
       else Ok w)
    0 w.

Definition run_onStates (fuel : nat) (w : World) : result World :=
  for_loop fuel
    (fun w => do d <- state_at (currentState (machine w)) w; Ok (length (onStates d)))
    (fun i w =>
       do d <- state_at (currentState (machine w)) w;
       do f <- of_option (onStates d !! i);
       call f [currentState (machine w)] w)
    0 w.

Definition update (fuel : nat) (w : World) : result World :=
  do w1 <- (if is_esp platform then Ok w else poll_timers fuel w);
  do w2 <- run_onStates fuel w1;
  Ok (with_machine (set_stateChanged false) w2).

Definition getCurrentState (w : World) : uint8_t := currentState (machine w).
Definition getPreviousState (w : World) : uint8_t := previousState (machine w).
Definition isStateChanged (w : World) : bool := stateChanged (machine w).
Definition timeInCurrentState (w : World) : Z :=
  wrap32 (millis w - stateEnteredTime (machine w)).

End Engine.

(** ** Sample callbacks and worlds, used to run the engine on concrete inputs *)

(** Callbacks that return without touching the machine or the clock. *)
Definition passive : fnptr -> list uint8_t -> World -> result World :=
  fun _ _ w => Ok w.

(** The application function at address [5] calls [setState(1)]; every other
    function is passive. *)
Definition reentrant (p : Platform) : fnptr -> list uint8_t -> World -> result World :=
  fun f _ w => if (f =? 5)%N then setState p passive 8 1%N w else Ok w.

(** Three states, nothing registered, [millis() = 1000] at construction. *)
Definition fresh3 : World :=
  mkWorld
    (mkEventStateMachine 0%N 0%N true
       (replicate 3 (mkStateDefinition [] [] [] [])) 3%N 1000%Z false [] [])
    1000%Z [] [].

(** A three-state machine in state [0] with callbacks on every list:
    before-handlers [11; 12], after-handler [13]; state [0] has exits
    [21; 22], a during-callback [23] and a timeout of 50 ms; state [1] has
    enters [31; 32; 31] and timeouts of 100 ms and 0 ms. *)
Definition demo (p : Platform) : World :=
  mkWorld
    (mkEventStateMachine 0%N 0%N false
       [ mkStateDefinition
           [mkTimeoutInfo 50 41%N (new_timer p) false 0%N 0%N] [] [23%N] [21%N; 22%N];
         mkStateDefinition
           [mkTimeoutInfo 100 42%N (new_timer p) false 0%N 0%N;
            mkTimeoutInfo 0 43%N (new_timer p) false 0%N 0%N]
           [31%N; 32%N; 31%N] [] [];
         mkStateDefinition [] [] [] [] ]
       3%N 1000%Z false [11%N; 12%N] [13%N])
    2000%Z [] [].

(** A three-state machine on the [SimpleArray] platform whose state [0]
    already holds [MAX_SIZE] timeout entries. *)
Definition crowded : World :=
  put_state 0%N
    (mkStateDefinition
       (replicate MAX_SIZE (mkTimeoutInfo 50 41%N (new_timer Arduino) false 0%N 0%N))
       [] [] [])
    fresh3.

(** [n] rounds of the main loop, 150 ms apart, with passive callbacks. *)
Fixpoint updates (p : Platform) (n : nat) (w : World) : result World :=
  match n with
  | O => Ok w
  | S n' => do w' <- update p passive 4 (advance 150 w); updates p n' w'
  end.

(** Three states; a timeout of 100 ms with callback [7] on state [1];
    then [setState(1)]. *)
Definition scenario_start (p : Platform) : result World :=
  do w0 <- construct 3%N 1000%Z;
  do r <- addTimeout p 1%N 100%Z 7%N w0;
  setState p passive 4 1%N (snd r).

(** ... followed by [n] rounds of [update], 150 ms apart. *)
Definition timeout_scenario (p : Platform) (n : nat) : result World :=
  do w1 <- scenario_start p; updates p n w1.

(** ** The public interface as data *)

Inductive Operation :=
| SetState (newState : uint8_t)
| Update
| OnTimeout (state timeoutIndex : uint8_t)
| ConfigureState (state : uint8_t) (timeout : Z) (onEnter onState onExit onTimeout : fnptr)
| AddTimeout (state : uint8_t) (timeout : Z) (onTimeout : fnptr)
| AddOnEnter (state : uint8_t) (onEnter : fnptr)
| AddOnState (state : uint8_t) (onState : fnptr)
| AddOnExit (state : uint8_t) (onExit : fnptr)
| RemoveTimeout (state : uint8_t) (timeout : Z)
| RemoveOnEnter (state : uint8_t) (onEnter : fnptr)
| RemoveOnState (state : uint8_t) (onState : fnptr)
| RemoveOnExit (state : uint8_t) (onExit : fnptr)
| AddBeforeStateChangeHandler (handler : fnptr)
| AddAfterStateChangeHandler (handler : fnptr)
| RemoveBeforeStateChangeHandler (handler : fnptr)
| RemoveAfterStateChangeHandler (handler : fnptr)
| SetDebug (enable : bool)
| Elapse (ms : Z).

Definition dropped {A : Type} (r : result (A * World)) : result World :=
  do x <- r; Ok (snd x).

(** One call of the public interface ([Elapse] is the clock moving on
    between two calls). *)
Definition perform (p : Platform) (invoke : fnptr -> list uint8_t -> World -> result World)
    (fuel : nat) (op : Operation) (w : World) : result World :=
  match op with
  | SetState s => setState p invoke fuel s w
  | Update => update p invoke fuel w
  | OnTimeout s i => onTimeout invoke s i w
  | ConfigureState s t e d x o => configureState p s t e d x o w
  | AddTimeout s t f => dropped (addTimeout p s t f w)
  | AddOnEnter s f => dropped (addOnEnter p s f w)
  | AddOnState s f => dropped (addOnState p s f w)
  | AddOnExit s f => dropped (addOnExit p s f w)
  | RemoveTimeout s t => dropped (removeTimeout s t w)
  | RemoveOnEnter s f => dropped (removeOnEnter s f w)
  | RemoveOnState s f => dropped (removeOnState s f w)
  | RemoveOnExit s f => dropped (removeOnExit s f w)
  | AddBeforeStateChangeHandler h => Ok (addBeforeStateChangeHandler p h w)
  | AddAfterStateChangeHandler h => Ok (addAfterStateChangeHandler p h w)
  | RemoveBeforeStateChangeHandler h => Ok (snd (removeBeforeStateChangeHandler h w))
  | RemoveAfterStateChangeHandler h => Ok (snd (removeAfterStateChangeHandler h w))
  | SetDebug b => Ok (setDebug b w)
  | Elapse ms => Ok (advance ms w)
  end.

Fixpoint perform_all (p : Platform) (invoke : fnptr -> list uint8_t -> World -> result World)
    (fuel : nat) (ops : list Operation) (w : World) : result World :=
  match ops with
  | [] => Ok w
  | op :: ops' => do w' <- perform p invoke fuel op w; perform_all p invoke fuel ops' w'
  end.

(** The operations that run no application code. *)
Definition quiet (op : Operation) : bool :=
  match op with
  | SetState _ | Update | OnTimeout _ _ => false
  | _ => true
  end.

(** ** Predicates of the statements *)

(** [currentState] and [previousState] are valid state ids. *)
Definition valid_states (w : World) : Prop :=
  (currentState (machine w) < numStates (machine w))%N /\
  (previousState (machine w) < numStates (machine w))%N.

(** Application code reaches the machine through its public interface only:
    started with valid state ids it returns with valid state ids and the
    same [numStates]. *)
Definition keeps_valid_states (invoke : fnptr -> list uint8_t -> World -> result World) : Prop :=
  forall f args w w', valid_states w -> invoke f args w = Ok w' ->
    valid_states w' /\ numStates (machine w') = numStates (machine w).

(** Application code that returns and leaves machine, clock and trace as
    they are: callbacks that do not call back into the machine. *)
Definition returns_unchanged (invoke : fnptr -> list uint8_t -> World -> result World) : Prop :=
  forall f args w, invoke f args w = Ok w.


(** The calls of one pass over a callback list. *)
Definition calls (args : list uint8_t) (l : list fnptr) : list Event :=
  (fun f => Call f args) <$> l.

Definition detaches (s : uint8_t) (l : list TimeoutInfo) : list Event :=
  imap (fun i _ => Detach s i) l.


(** Whether [push_back] stores the item: always in a vector, in a
    [SimpleArray] while it holds fewer than [MAX_SIZE] items. *)
Definition has_room {T : Type} (p : Platform) (c : list T) : Prop :=
  has_vector p = true \/ length c < MAX_SIZE.

(** What the three callback-list additions of [configureState] keep. *)
Definition same_timeouts (s : uint8_t) (w w' : World) : Prop :=
  isValidState s w' = true /\
  is_Some (states (machine w') !! N.to_nat s) /\
  timeouts <$> states (machine w') = timeouts <$> states (machine w).

(** The fields that only a transition or [update] writes. *)
Definition core (w : World) : uint8_t * uint8_t * uint8_t * bool :=
  (numStates (machine w), currentState (machine w), previousState (machine w),
   stateChanged (machine w)).

(** A property of the world that reads [core] only. *)
Definition core_only (Q : World -> Prop) : Prop :=
  forall w w', core w = core w' -> Q w -> Q w'.

Definition kept_by (invoke : fnptr -> list uint8_t -> World -> result World)
    (Q : World -> Prop) : Prop :=
  forall f args w w', invoke f args w = Ok w' -> Q w -> Q w'.

(** Every timer of the list is a millis()-based one with a null function. *)
Definition null_funcs (l : list TimeoutInfo) : Prop :=
  Forall (fun ti => exists startTime period running,
            timer ti = PollTimer startTime period running nullptr) l.

(** A world that polling cannot move: the current state and the trace are
    fixed, the current state has [n] timeouts whose timers have null
    functions, and its during-callbacks are [os]. *)
Definition idle (s : uint8_t) (tr : list Event) (n : nat) (os : list fnptr) (w : World) : Prop :=
  currentState (machine w) = s /\ trace w = tr /\
  exists d, states (machine w) !! N.to_nat s = Some d /\
    length (timeouts d) = n /\ null_funcs (timeouts d) /\ onStates d = os.

(** ** What is registered, and well-formed machines *)

(** What the application registered on a state: the durations and callbacks
    of its timeouts and its three callback lists. *)
Definition reg_of (d : StateDefinition)
    : list (Z * fnptr) * list fnptr * list fnptr * list fnptr :=
  ((fun ti => (duration ti, callback ti)) <$> timeouts d,
   onEnters d, onStates d, onExits d).

Definition registry (w : World)
    : list fnptr * list fnptr
      * list (list (Z * fnptr) * list fnptr * list fnptr * list fnptr) :=
  (beforeStateChangeHandlers (machine w), afterStateChangeHandlers (machine w),
   reg_of <$> states (machine w)).

(** Every function pointer the machine holds. *)
Definition state_callbacks (d : StateDefinition) : list fnptr :=
  (callback <$> timeouts d) ++ onEnters d ++ onStates d ++ onExits d.

Definition registered (w : World) : list fnptr :=
  beforeStateChangeHandlers (machine w) ++ afterStateChangeHandlers (machine w)
  ++ mjoin (state_callbacks <$> states (machine w)).

(** A property of the world that reads [core] and [registry] only. *)
Definition stable (Q : World -> Prop) : Prop :=
  forall w w', core w = core w' -> registry w = registry w' -> Q w -> Q w'.

(** The array [states] has [numStates] records and the two state ids are
    inside it. *)
Definition well_formed (w : World) : Prop :=
  length (states (machine w)) = N.to_nat (numStates (machine w)) /\ valid_states w.

Definition keeps_well_formed (invoke : fnptr -> list uint8_t -> World -> result World) : Prop :=
  forall f args w w', well_formed w -> invoke f args w = Ok w' ->
    well_formed w' /\ numStates (machine w') = numStates (machine w).

Definition never_undefined (invoke : fnptr -> list uint8_t -> World -> result World) : Prop :=
  forall f args w, well_formed w -> invoke f args w <> Undefined.

Definition keeps_registry (invoke : fnptr -> list uint8_t -> World -> result World) : Prop :=
  forall f args w w', invoke f args w = Ok w' -> registry w' = registry w.

Definition keeps_no_null (invoke : fnptr -> list uint8_t -> World -> result World) : Prop :=
  forall f args w w', invoke f args w = Ok w' ->
    nullptr ∉ registered w -> nullptr ∉ registered w'.

(** What one add or remove does to the record of a state ([f] is the pointer
    handed to an add): no other pointer appears, and a timeout entry that was
    not there before is inactive with a fresh timer. *)
Definition edited (p : Platform) (f : fnptr) (d d' : StateDefinition) : Prop :=
  (forall x, x ∈ state_callbacks d' -> x = f \/ x ∈ state_callbacks d) /\
  (forall ti, ti ∈ timeouts d' ->
     ti ∈ timeouts d \/ (active ti = false /\ timer ti = new_timer p)).

(** The worlds that the operations running no callback lead to. *)
Inductive configured (p : Platform) : World -> World -> Prop :=
| configured_refl w : configured p w w
| configured_state w w1 s d d' f es :
    configured p w w1 ->
    isValidState s w1 = true ->
    states (machine w1) !! N.to_nat s = Some d ->
    f <> nullptr -> edited p f d d' ->
    configured p w (emits es (put_state s d' w1))
| configured_before w w1 l f :
    configured p w w1 -> f <> nullptr ->
    (forall x, x ∈ l -> x = f \/ x ∈ beforeStateChangeHandlers (machine w1)) ->
    configured p w (with_machine (set_before l) w1)
| configured_after w w1 l f :
    configured p w w1 -> f <> nullptr ->
    (forall x, x ∈ l -> x = f \/ x ∈ afterStateChangeHandlers (machine w1)) ->
    configured p w (with_machine (set_after l) w1)
| configured_debug w w1 b :
    configured p w w1 -> configured p w (setDebug b w1)
| configured_advance w w1 ms :
    configured p w w1 -> configured p w (advance ms w1).

(** Only timeouts of the current state are active. *)
Definition active_only_in_current (w : World) : Prop :=
  forall i d ti,
    states (machine w) !! i = Some d -> ti ∈ timeouts d -> active ti = true ->
    i = N.to_nat (currentState (machine w)).

(** No timeout of any state is active. *)
Definition all_inactive (w : World) : Prop :=
  forall i d ti,
    states (machine w) !! i = Some d -> ti ∈ timeouts d -> active ti = false.

(** A property of the world that reads the machine only. *)
Definition machine_only (Q : World -> Prop) : Prop :=
  forall w w', machine w = machine w' -> Q w -> Q w'.

(** ** The destructor *)

(** The two loops of [~EventStateMachine], for the [k] states from [s] on:
    every timer is detached and every entry marked inactive. The release of
    the array that follows is not part of the world. *)
Fixpoint stop_states (k : nat) (s : uint8_t) (w : World) : result World :=
  match k with
  | O => Ok w
  | S k' =>
      do d <- state_at s w;
      stop_states k' (s + 1)%N
        (emits (detaches s (timeouts d))
           (put_state s (set_timeouts (cancel <$> timeouts d) d) w))
  end.

Definition destructor (w : World) : result World :=
  stop_states (N.to_nat (numStates (machine w))) 0%N w.

(** The state an operation is given, if it is given one. *)
Definition target (op : Operation) : option uint8_t :=
  match op with
  | ConfigureState s _ _ _ _ _ | AddTimeout s _ _ | AddOnEnter s _
  | AddOnState s _ | AddOnExit s _ | RemoveTimeout s _ | RemoveOnEnter s _
  | RemoveOnState s _ | RemoveOnExit s _ => Some s
  | _ => None
  end.

(** The world apart from the trace and from the record of state [s]. *)
Definition rest_of (s : uint8_t) (w : World) :=
  (<[N.to_nat s := None]> (Some <$> states (machine w)),
   beforeStateChangeHandlers (machine w), afterStateChangeHandlers (machine w),
   core w, stateEnteredTime (machine w), debugEnabled (machine w),
   millis w, serial w).

(** Every timer of every state is a millis()-based one with a null
    function. *)
Definition timers_null (w : World) : Prop :=
  forall i d, states (machine w) !! i = Some d -> null_funcs (timeouts d).

(** ** SimpleArray<T, MAX_SIZE>, as the header declares it *)

(** [T items[MAX_SIZE]; size_t count]. *)
Record SimpleArray (T : Type) := mkSimpleArray {
  items : list T;
  count : nat
}.
Arguments mkSimpleArray {T} items count.
Arguments items {T} s.
Arguments count {T} s.

(** [SimpleArray()], the slots holding default-constructed items. *)
Definition SimpleArray_new {T : Type} (fill : T) : SimpleArray T :=
  mkSimpleArray (replicate MAX_SIZE fill) 0.

Definition SimpleArray_size {T : Type} (a : SimpleArray T) : nat := count a.

(** [operator[]]; outside the storage the access is undefined. *)
Definition SimpleArray_at {T : Type} (a : SimpleArray T) (index : nat) : result T :=
  of_option (items a !! index).

Definition SimpleArray_push_back {T : Type} (a : SimpleArray T) (item : T)
    : bool * SimpleArray T :=
  if decide (count a < MAX_SIZE)
  then (true, mkSimpleArray (<[count a := item]> (items a)) (S (count a)))
  else (false, a).

(** [for (size_t j = index; j < count - 1; j++) items[j] = items[j + 1];]
    with [bound] for [count - 1]. *)
Fixpoint shift_down {T : Type} (fuel j bound : nat) (its : list T) : list T :=
  match fuel with
  | O => its
  | S fuel' =>
      if decide (j < bound) then
        match its !! S j with
        | Some x => shift_down fuel' (S j) bound (<[j := x]> its)
        | None => its
        end
      else its
  end.

(** [erase(itemPtr)], with [index] for [itemPtr - items]. *)
Definition SimpleArray_erase {T : Type} (a : SimpleArray T) (index : nat)
    : bool * SimpleArray T :=
  if decide (index < count a)
  then (true, mkSimpleArray (shift_down (count a) index (count a - 1) (items a))
                (count a - 1))
  else (false, a).

(** [begin()] to [end()]: the items in use. *)
Definition SimpleArray_contents {T : Type} (a : SimpleArray T) : list T :=
  take (count a) (items a).

Definition SimpleArray_ok {T : Type} (a : SimpleArray T) : Prop :=
  length (items a) = MAX_SIZE /\ count a <= MAX_SIZE.

(** ** Basic facts *)

Lemma bind_Ok {A B : Type} (m : result A) (k : A -> result B) (b : B) :
  bind m k = Ok b -> exists a, m = Ok a /\ k a = Ok b.
Proof. destruct m; simpl; intros H; try discriminate. eauto. Qed.

Lemma of_option_Ok {A : Type} (o : option A) (a : A) :
  of_option o = Ok a -> o = Some a.
Proof. destruct o; simpl; congruence. Qed.

Lemma isValidState_lt s w : isValidState s w = true <-> (s < numStates (machine w))%N.
Proof. unfold isValidState. apply N.ltb_lt. Qed.

Lemma emits_emits es1 es2 w : emits es2 (emits es1 w) = emits (es1 ++ es2) w.
Proof. unfold emits; simpl. by rewrite app_assoc. Qed.

Lemma emit_emits e w : emit e w = emits [e] w.
Proof. reflexivity. Qed.

Lemma emits_nil w : emits [] w = w.
Proof. destruct w. unfold emits; simpl. by rewrite app_nil_r. Qed.

(** ** Loops *)

Section Loops.

Variable size : World -> result nat.
Variable body : nat -> World -> result World.

(** What every iteration keeps holds when the loop returns. *)
Lemma for_loop_inv (Q : World -> Prop) :
  (forall j w w', Q w -> body j w = Ok w' -> Q w') ->
  forall fuel i w w', Q w -> for_loop fuel size body i w = Ok w' -> Q w'.
Proof.
  intros Hbody. induction fuel as [|fuel IH]; intros i w w' HQ; simpl; [done|].
  destruct (size w) as [n| |]; simpl; try done.
  destruct (decide (i < n)); [|by intros [= <-]].
  destruct (body i w) as [w1| |] eqn:Hb; simpl; try done.
  apply IH. by eapply Hbody.
Qed.

(** A loop whose iterations return and keep the bound fixed returns, given
    more fuel than iterations. *)
Lemma for_loop_total (Q : World -> Prop) (n : nat) :
  (forall w, Q w -> size w = Ok n) ->
  (forall j w, Q w -> j < n -> exists w', body j w = Ok w' /\ Q w') ->
  forall fuel i w, Q w -> n - i < fuel ->
    exists w', for_loop fuel size body i w = Ok w' /\ Q w'.
Proof.
  intros Hsize Hbody. induction fuel as [|fuel IH]; intros i w HQ Hfuel; [lia|].
  simpl. rewrite (Hsize w HQ); simpl.
  destruct (decide (i < n)) as [Hi|Hi]; [|by exists w].
  destruct (Hbody i w HQ Hi) as (w1 & -> & HQ1); simpl.
  apply IH; [done|lia].
Qed.

(** A loop whose iteration [j] only records event [es !! j]. *)
Lemma for_loop_emits (es : list Event) (w0 : World) :
  (forall es', size (emits es' w0) = Ok (length es)) ->
  (forall j e es', es !! j = Some e ->
     body j (emits es' w0) = Ok (emits (es' ++ [e]) w0)) ->
  forall fuel i es', length es - i < fuel ->
    for_loop fuel size body i (emits es' w0) = Ok (emits (es' ++ drop i es) w0).
Proof.
  intros Hsize Hbody. induction fuel as [|fuel IH]; intros i es' Hfuel; [lia|].
  simpl. rewrite Hsize; simpl.
  destruct (decide (i < length es)) as [Hi|Hi].
  - destruct (lookup_lt_is_Some_2 es i Hi) as [e He].
    rewrite (Hbody i e es' He); simpl.
    rewrite IH by lia. rewrite (drop_S es e i He), <- app_assoc. reflexivity.
  - rewrite drop_ge by lia. by rewrite app_nil_r.
Qed.

End Loops.

(** ** C3: construction *)

(** C3 (as the code has it): [construct] has no failing path. For every
    [numStates], zero included, it returns a machine with exactly
    [numStates] empty StateRecords, [currentState = previousState = 0],
    [stateChanged = true] and [stateEnteredTimestamp] the time of the call. *)
Theorem C3_construct_total (numStates0 : uint8_t) (now : Z) :
  exists w, construct numStates0 now = Ok w /\
    length (states (machine w)) = N.to_nat numStates0 /\
    (forall d, d ∈ states (machine w) -> d = mkStateDefinition [] [] [] []) /\
    numStates (machine w) = numStates0 /\
    currentState (machine w) = 0%N /\
    previousState (machine w) = 0%N /\
    stateChanged (machine w) = true /\
    stateEnteredTime (machine w) = now /\
    millis w = now.
Proof.
  eexists; split; [reflexivity|]; simpl.
  rewrite length_replicate. repeat split.
  intros d Hd. by apply elem_of_replicate in Hd as [-> _].
Qed.

(** C3 (counterexample to the claim as stated): [construct(0)] does not
    fail; it returns a machine without any StateRecord, whose
    [currentState = 0] is then not a valid state id. *)
Lemma C3_construct_zero_does_not_fail :
  exists w, construct 0%N 1000%Z = Ok w /\
    states (machine w) = [] /\
    isValidState (currentState (machine w)) w = false.
Proof. eexists; split; [reflexivity|]. split; reflexivity. Qed.

(** ** C6, C7: the silent no-ops *)

(** C6: for a valid state [s] that is the current state, [setState(s)]
    returns the world as it was: nothing is appended to the trace (no
    callback, no handler, no timer cancelled or armed) and no field of the
    machine changes, whatever the callbacks are and whatever the fuel. *)
Theorem C6_setState_same_state_noop p invoke fuel (s : uint8_t) (w : World) :
  isValidState s w = true ->
  currentState (machine w) = s ->
  setState p invoke fuel s w = Ok w.
Proof.
  intros Hv Hs. unfold setState. rewrite Hv; simpl.
  by rewrite <- Hs, N.eqb_refl.
Qed.

Lemma C6_setState_same_state_noop_witness :
  setState ESP (reentrant ESP) 0 0%N (demo ESP) = Ok (demo ESP).
Proof.
  apply (C6_setState_same_state_noop ESP (reentrant ESP) 0 0%N (demo ESP)); reflexivity.
Defined.

(** C7: for a state id that is not below [numStates], [setState] returns the
    world as it was (no callback, every field unchanged), and each of the
    state-scoped add and remove operations, and [configureState], returns
    false (or nothing) and the world as it was. *)
Theorem C7_invalid_state_noop p invoke fuel (s : uint8_t) (w : World) :
  (numStates (machine w) <= s)%N ->
  setState p invoke fuel s w = Ok w /\
  (forall t f, addTimeout p s t f w = Ok (false, w)) /\
  (forall f, addOnEnter p s f w = Ok (false, w)) /\
  (forall f, addOnState p s f w = Ok (false, w)) /\
  (forall f, addOnExit p s f w = Ok (false, w)) /\
  (forall t, removeTimeout s t w = Ok (false, w)) /\
  (forall f, removeOnEnter s f w = Ok (false, w)) /\
  (forall f, removeOnState s f w = Ok (false, w)) /\
  (forall f, removeOnExit s f w = Ok (false, w)) /\
  (forall t e d x o, configureState p s t e d x o w = Ok w).
Proof.
  intros Hs.
  assert (Hv : isValidState s w = false) by (unfold isValidState; by apply N.ltb_ge).
  unfold setState, addTimeout, addOnEnter, addOnState, addOnExit, removeTimeout,
    removeOnEnter, removeOnState, removeOnExit, configureState.
  rewrite Hv; simpl. repeat split; reflexivity.
Qed.

Lemma C7_invalid_state_noop_witness :
  setState RP2040 passive 4 5%N fresh3 = Ok fresh3 /\
  addTimeout RP2040 5%N 100%Z 7%N fresh3 = Ok (false, fresh3) /\
  removeOnEnter 5%N 7%N fresh3 = Ok (false, fresh3).
Proof.
  destruct (C7_invalid_state_noop RP2040 passive 4 5%N fresh3)
    as (H1 & H2 & _ & _ & _ & _ & H3 & _); [vm_compute; discriminate|].
  split; [exact H1|]. split; [apply H2 | apply H3].
Defined.

(** [setState(5)] on a machine of three states. *)
Example setState_5_of_3 :
  setState ESP (reentrant ESP) 4 5%N (demo ESP) = Ok (demo ESP).
Proof. reflexivity. Qed.

(** ** C8: removal of the first match *)

Lemma list_find_split {A : Type} (P : A -> Prop) `{!forall x, Decision (P x)} (l : list A) :
  (list_find P l = None /\ Forall (fun x => ~ P x) l) \/
  (exists l1 x l2, l = l1 ++ x :: l2 /\ P x /\ Forall (fun y => ~ P y) l1 /\
     list_find P l = Some (length l1, x)).
Proof.
  induction l as [|a l IH]; [left; by split|].
  cbn [list_find]. destruct (decide (P a)) as [Ha|Ha].
  - right. exists [], a, l. by repeat split.
  - destruct IH as [[-> Hall]|(l1 & x & l2 & -> & Hx & Hall & ->)].
    + left. split; [done|]. by constructor.
    + right. exists (a :: l1), x, l2.
      split; [done|]. split; [done|]. split; [by constructor|done].
Qed.

Lemma erase_cancelled (l1 l2 : list TimeoutInfo) (ti ti' : TimeoutInfo) :
  erase (length l1) (<[length l1 := ti']> (l1 ++ ti :: l2)) = l1 ++ l2.
Proof.
  unfold erase.
  replace (length l1) with (length l1 + 0) at 2 by lia.
  rewrite insert_app_r; simpl. apply delete_middle.
Qed.

Lemma Forall_ne_not_elem (f : fnptr) (l : list fnptr) :
  Forall (fun y => y <> f) l -> f ∉ l.
Proof.
  rewrite Forall_forall. intros H Hin.
  apply list_elem_of_In in Hin. exact (H f Hin eq_refl).
Qed.



(** The enter callbacks of state [1] are [31; 32; 31]: removing [31] takes
    the first one only. *)
Example remove_keeps_later_duplicate :
  (do r <- removeOnEnter 1%N 31%N (demo RP2040);
   do d <- state_at 1%N (snd r);
   Ok (fst r, onEnters d))
  = Ok (true, [32%N; 31%N]).
Proof. reflexivity. Qed.

(** The timeouts of state [1] last 100 ms and 0 ms: removing the one of 0 ms
    detaches the timer at index 1; there is none of 5 ms. *)
Example removeTimeout_detaches :
  (do r <- removeTimeout 1%N 0%Z (demo ESP);
   do d <- state_at 1%N (snd r);
   Ok (fst r, duration <$> timeouts d, trace (snd r)))
  = Ok (true, [100%Z], [Detach 1%N 1]) /\
  removeTimeout 1%N 5%Z (demo ESP) = Ok (false, demo ESP).
Proof. split; reflexivity. Qed.

(** ** C10: a zero duration *)

Lemma put_state_keeps_timeouts s d d' w :
  states (machine w) !! N.to_nat s = Some d ->
  timeouts d' = timeouts d ->
  timeouts <$> states (machine (put_state s d' w)) = timeouts <$> states (machine w).
Proof.
  intros Hd Ht. simpl. rewrite list_fmap_insert, Ht.
  apply list_insert_id. by rewrite list_lookup_fmap, Hd.
Qed.

Lemma put_state_lookup s d' w :
  N.to_nat s < length (states (machine w)) ->
  states (machine (put_state s d' w)) !! N.to_nat s = Some d'.
Proof. intros Hlt. simpl. by apply list_lookup_insert_eq. Qed.

Lemma put_state_same s d w :
  states (machine w) !! N.to_nat s = Some d -> put_state s d w = w.
Proof.
  intros Hd. destruct w as [m t tr se]; destruct m; simpl in *.
  unfold put_state, with_machine, set_states; simpl.
  by rewrite list_insert_id.
Qed.

Lemma same_timeouts_step p s w w1 (f : fnptr)
    (add : Platform -> uint8_t -> fnptr -> World -> result (bool * World)) :
  add = addOnEnter \/ add = addOnState \/ add = addOnExit ->
  same_timeouts s w w1 ->
  exists w2,
    (if (f =? nullptr)%N then Ok w1 else do r <- add p s f w1; Ok (snd r)) = Ok w2 /\
    same_timeouts s w w2.
Proof.
  intros Hadd (Hv & [d Hd] & Ht).
  destruct (f =? nullptr)%N eqn:Hf; [exists w1; by repeat split; eauto|].
  assert (Hlt : N.to_nat s < length (states (machine w1)))
    by (apply lookup_lt_is_Some; eauto).
  destruct Hadd as [->|[->| ->]];
    unfold addOnEnter, addOnState, addOnExit, state_at;
    rewrite Hv, Hf, Hd; simpl;
    (eexists; split; [reflexivity|]);
    (split; [exact Hv|]);
    (split; [rewrite put_state_lookup by done; eauto|]);
    rewrite <- Ht; by apply put_state_keeps_timeouts with d.
Qed.

(** C10 (as the code has it): on a valid state with a non-null callback,
    [addTimeout(state, 0, cb)] returns true; when the container has room
    (always with [std::vector], below [MAX_SIZE] entries with [SimpleArray])
    it appends an inactive entry of duration 0 with that callback, and when
    the [SimpleArray] is full it leaves the world as it was; whereas
    [configureState] with a timeout of 0 leaves every timeout list as it
    was, and with a timeout above 0 it forwards to [addTimeout]. *)
Theorem C10_addTimeout_zero_duration p (s : uint8_t) (cb : fnptr) (w : World)
    (d : StateDefinition) :
  isValidState s w = true ->
  cb <> nullptr ->
  states (machine w) !! N.to_nat s = Some d ->
  (has_room p (timeouts d) ->
   exists ti,
     duration ti = 0%Z /\ callback ti = cb /\ active ti = false /\
     addTimeout p s 0 cb w
       = Ok (true, put_state s (set_timeouts (timeouts d ++ [ti]) d) w)) /\
  (~ has_room p (timeouts d) -> addTimeout p s 0 cb w = Ok (true, w)) /\
  (forall e st x, exists w',
     configureState p s 0 e st x cb w = Ok w' /\
     timeouts <$> states (machine w') = timeouts <$> states (machine w)) /\
  (forall t, (0 < t)%Z ->
     configureState p s t nullptr nullptr nullptr cb w
       = dropped (addTimeout p s t cb w)).
Proof.
  intros Hv Hcb Hd.
  assert (Hcb' : (cb =? nullptr)%N = false) by by apply N.eqb_neq.
  split; [|split; [|split]].
  - intros Hroom. unfold addTimeout, state_at. rewrite Hv, Hcb', Hd; simpl.
    eexists. split; [|split; [|split]]; [| | |f_equal; f_equal; f_equal; f_equal].
    4: { unfold push_back. destruct Hroom as [->|Hlt]; [reflexivity|].
         destruct (has_vector p); [reflexivity|].
         destruct (decide (length (timeouts d) < MAX_SIZE)); [reflexivity|lia]. }
    all: reflexivity.
  - intros Hfull. unfold addTimeout, state_at. rewrite Hv, Hcb', Hd; simpl.
    unfold push_back.
    destruct (has_vector p) eqn:Hvec; [destruct Hfull; by left|].
    destruct (decide (length (timeouts d) < MAX_SIZE)); [destruct Hfull; by right|].
    do 2 f_equal. destruct d; simpl in *. by apply put_state_same.
  - intros e st x. unfold configureState. rewrite Hv; simpl.
    assert (H0 : same_timeouts s w w) by (repeat split; eauto).
    destruct (same_timeouts_step p s w w e addOnEnter) as (w1 & -> & H1); [auto..|].
    destruct (same_timeouts_step p s w w1 st addOnState) as (w2 & E2 & H2); [auto..|].
    simpl. rewrite E2; simpl.
    destruct (same_timeouts_step p s w w2 x addOnExit) as (w3 & E3 & H3); [auto..|].
    rewrite E3; simpl. exists w3. split; [reflexivity|]. apply H3.
  - intros t Ht. unfold configureState. rewrite Hv; simpl.
    rewrite Hcb'; simpl. by rewrite bool_decide_eq_true_2.
Qed.

Lemma C10_addTimeout_zero_duration_witness :
  exists ti,
    duration ti = 0%Z /\ callback ti = 7%N /\ active ti = false /\
    addTimeout Arduino 1%N 0 7%N fresh3
      = Ok (true,
            put_state 1%N
              (set_timeouts (timeouts (mkStateDefinition [] [] [] []) ++ [ti])
                 (mkStateDefinition [] [] [] [])) fresh3).
Proof.
  refine (proj1 (C10_addTimeout_zero_duration Arduino 1%N 7%N fresh3
                   (mkStateDefinition [] [] [] []) eq_refl _ eq_refl) _).
  - discriminate.
  - right. simpl. unfold MAX_SIZE. lia.
Defined.

(** C10 (counterexample to the claim as stated): on the [SimpleArray]
    platform, with state [0] valid and already holding 8 timeout entries,
    [addTimeout(0, 0, 7)] returns true and appends nothing. *)
Lemma C10_full_array_appends_nothing :
  isValidState 0%N crowded = true /\
  (7%N : fnptr) <> nullptr /\
  addTimeout Arduino 0%N 0 7%N crowded = Ok (true, crowded).
Proof. split; [reflexivity|]. split; [discriminate|reflexivity]. Qed.

(** ** C5: timeout dispatch *)



(** ** C1: the transition sequence *)

Section Passive.
Variable invoke : fnptr -> list uint8_t -> World -> result World.
Hypothesis Hpassive : returns_unchanged invoke.

Lemma call_passive f args es w :
  call invoke f args (emits es w) = Ok (emits (es ++ [Call f args]) w).
Proof. unfold call. by rewrite Hpassive, emit_emits, emits_emits. Qed.

Ltac calls_loop l :=
  let es' := fresh "es'" in
  match goal with
  | |- for_loop _ _ _ _ ?w = _ =>
      rewrite <- (emits_nil w) at 1;
      rewrite for_loop_emits with (es := l);
      [ rewrite drop_0; reflexivity
      | intros es'; simpl
      | intros j e es' He; simpl;
        unfold calls in He; rewrite list_lookup_fmap in He
      | unfold calls; rewrite length_fmap; lia ]
  end.





Lemma run_onStates_passive fuel w d :
  states (machine w) !! N.to_nat (currentState (machine w)) = Some d ->
  length (onStates d) < fuel ->
  run_onStates invoke fuel w
    = Ok (emits (calls [currentState (machine w)] (onStates d)) w).
Proof.
  intros Hd Hfuel. unfold run_onStates, state_at.
  calls_loop (calls [currentState (machine w)] (onStates d)).
  - rewrite Hd; simpl. unfold calls. by rewrite length_fmap.
  - rewrite Hd; simpl.
    destruct (_ !! j) as [h|]; simplify_eq/=. apply call_passive.
Qed.

End Passive.


(** Without the hypothesis on the callbacks the rest of the sequence works
    on what a nested call left: here the before-handler [5] calls
    [setState(1)] while [setState(2)] runs from state [0], and the outer call
    then leaves state [1], not state [0]. *)
Example nested_transition_in_before_handler :
  (do w <- setState RP2040 (reentrant RP2040) 4 2%N
             (addBeforeStateChangeHandler RP2040 5%N fresh3);
   Ok (trace w, getCurrentState w, getPreviousState w))
  = Ok ([Call 5%N [0%N; 2%N]; Call 5%N [0%N; 1%N]], 2%N, 1%N).
Proof. reflexivity. Qed.

(** ** C2: the timeout of the polling platforms *)

(** When the timers of the current state have null functions,
    [TimerImplementation::update] never answers true, so the timer scan of
    [update] calls nothing, at whatever time. [setState] arms the timers of
    the platforms without Ticker with [once_ms(duration, nullptr)]. *)
Lemma poll_timers_idle invoke fuel s tr n os w :
  idle s tr n os w -> n < fuel ->
  exists w', poll_timers invoke fuel w = Ok w' /\ idle s tr n os w'.
Proof.
  intros Hidle Hfuel. unfold poll_timers.
  apply (for_loop_total _ _ (idle s tr n os) n); [| |done|lia].
  - intros w0 (Hs & _ & d & Hd & Hn & _). unfold state_at. by rewrite Hs, Hd, <- Hn.
  - intros j w0 (Hs & Htr & d & Hd & Hn & Hnull & Hos) Hj.
    unfold state_at. rewrite Hs, Hd; simpl.
    destruct (lookup_lt_is_Some_2 (timeouts d) j) as [ti Hti]; [lia|].
    rewrite Hti; simpl.
    destruct (active ti); [|by exists w0; repeat split; eauto 10].
    unfold TimerImplementation_update, state_at. rewrite Hd; simpl. rewrite Hti; simpl.
    destruct (Forall_lookup_1 _ _ _ _ Hnull Hti) as (a & b & c & ->).
    destruct (c && _); simpl; [|by exists w0; repeat split; eauto 10].
    unfold put_timeout, state_at. rewrite Hd; simpl.
    eexists; split; [reflexivity|].
    split; [done|]. split; [done|].
    eexists; split; [simpl; apply list_lookup_insert_eq; by eapply lookup_lt_Some|].
    simpl. rewrite length_insert. split; [done|]. split; [|done].
    apply Forall_insert; [done|]. simpl. eauto.
Qed.

Lemma update_idle p invoke fuel s tr n w :
  is_esp p = false -> idle s tr n [] w -> n < fuel ->
  exists w', update p invoke fuel w = Ok w' /\ idle s tr n [] w'.
Proof.
  intros Hp Hidle Hfuel. unfold update. rewrite Hp.
  destruct (poll_timers_idle invoke fuel s tr n [] w Hidle Hfuel)
    as (w1 & -> & (Hs & Htr & d & Hd & Hn & Hnull & Hos)); simpl.
  unfold run_onStates. destruct fuel as [|fuel]; [lia|]. simpl.
  unfold state_at. rewrite Hs, Hd; simpl. rewrite Hos; simpl.
  eexists; split; [reflexivity|]. repeat split; [done..|]. exists d. by repeat split.
Qed.

Lemma updates_idle p s tr n k w :
  is_esp p = false -> idle s tr n [] w -> n < 4 ->
  exists w', updates p k w = Ok w' /\ idle s tr n [] w'.
Proof.
  intros Hp. revert w. induction k as [|k IH]; intros w Hidle Hn; [by exists w|].
  simpl.
  destruct (update_idle p passive 4 s tr n (advance 150 w) Hp) as (w1 & -> & Hidle1);
    [exact Hidle|done|].
  simpl. by apply IH.
Qed.

Lemma scenario_start_idle p :
  is_esp p = false ->
  exists w1, scenario_start p = Ok w1 /\ idle 1%N [OnceMs 1%N 0 100] 1 [] w1.
Proof.
  intros Hp. destruct p; [discriminate| |];
    (eexists; split; [reflexivity|]);
    (split; [reflexivity|]); (split; [reflexivity|]);
    (eexists; split; [reflexivity|]);
    (split; [reflexivity|]); (split; [|reflexivity]);
    repeat constructor; simpl; eauto.
Qed.

(** C2 (what the code does): on both platforms without Ticker, in the
    scenario of the claim, no round of [update] ever calls the timeout
    callback [7]: after any number of rounds, 150 ms apart, the trace holds
    the arming of the timer and nothing else. *)
Theorem C2_polling_timeout_never_fires (n : nat) :
  (exists w, timeout_scenario RP2040 n = Ok w /\
     trace w = [OnceMs 1%N 0 100] /\ (Call 7%N [1%N; 0%N] ∉ trace w)) /\
  (exists w, timeout_scenario Arduino n = Ok w /\
     trace w = [OnceMs 1%N 0 100] /\ (Call 7%N [1%N; 0%N] ∉ trace w)).
Proof.
  split; unfold timeout_scenario.
  - destruct (scenario_start_idle RP2040 eq_refl) as (w1 & -> & Hidle); simpl.
    destruct (updates_idle RP2040 _ _ _ n w1 eq_refl Hidle) as (w & -> & (_ & Htr & _));
      [lia|].
    exists w. split; [done|]. split; [done|]. rewrite Htr.
    intros Hin. apply list_elem_of_singleton in Hin. discriminate.
  - destruct (scenario_start_idle Arduino eq_refl) as (w1 & -> & Hidle); simpl.
    destruct (updates_idle Arduino _ _ _ n w1 eq_refl Hidle) as (w & -> & (_ & Htr & _));
      [lia|].
    exists w. split; [done|]. split; [done|]. rewrite Htr.
    intros Hin. apply list_elem_of_singleton in Hin. discriminate.
Qed.

(** The first round alone, evaluated: the timer has expired (150 ms against
    100 ms) and is switched off, the entry stays active, nothing is called. *)
Example polling_first_round :
  (do w <- timeout_scenario RP2040 1;
   do d <- state_at 1%N w;
   Ok (millis w, trace w, timeouts d))
  = Ok (1150%Z, [OnceMs 1%N 0 100],
        [mkTimeoutInfo 100 7%N (PollTimer 1000 100 false nullptr) true 1%N 0%N]).
Proof. reflexivity. Qed.

(** The sibling path: on ESP the Ticker runs [onTimeoutStatic(1, 0)], which
    calls the callback with [(1, 0)]. *)
Example ticker_path_calls_back :
  (do w1 <- scenario_start ESP;
   do w2 <- onTimeoutStatic passive 1%N 0%N (advance 100 w1);
   Ok (trace w2))
  = Ok [OnceMs 1%N 0 100; Call 7%N [1%N; 0%N]].
Proof. reflexivity. Qed.

(** ** Invariants *)

Lemma core_emit e w : core (emit e w) = core w.
Proof. reflexivity. Qed.
Lemma core_emits es w : core (emits es w) = core w.
Proof. reflexivity. Qed.
Lemma core_print d w : core (print d w) = core w.
Proof. reflexivity. Qed.
Lemma core_put_state s d w : core (put_state s d w) = core w.
Proof. reflexivity. Qed.
Lemma core_put_timeout s i ti w w' : put_timeout s i ti w = Ok w' -> core w' = core w.
Proof.
  unfold put_timeout. intros H. apply bind_Ok in H as (d & _ & [= <-]). reflexivity.
Qed.

Section Invariants.

Variable invoke : fnptr -> list uint8_t -> World -> result World.
Variable Q : World -> Prop.
Hypothesis Q_core : core_only Q.
Hypothesis Q_kept : kept_by invoke Q.

Lemma call_keeps f args w w' : Q w -> call invoke f args w = Ok w' -> Q w'.
Proof.
  intros HQ Hc. unfold call in Hc. eapply Q_kept; [exact Hc|].
  eapply Q_core; [|exact HQ]. reflexivity.
Qed.

Lemma onTimeout_keeps s i w w' : Q w -> onTimeout invoke s i w = Ok w' -> Q w'.
Proof.
  intros HQ. unfold onTimeout.
  destruct (_ =? _)%N; [|by intros [= <-]].
  intros H. apply bind_Ok in H as (d & _ & H).
  destruct (decide _); [|by injection H as <-].
  apply bind_Ok in H as (ti & _ & H).
  apply bind_Ok in H as (w2 & Hput & H).
  eapply call_keeps; [|exact H].
  eapply Q_core; [|exact HQ].
  rewrite (core_put_timeout _ _ _ _ _ Hput).
  by destruct (debugEnabled (machine w)).
Qed.

Lemma TimerImplementation_update_keeps s i w r :
  Q w -> TimerImplementation_update invoke s i w = Ok r -> Q (snd r).
Proof.
  intros HQ. unfold TimerImplementation_update. intros H.
  apply bind_Ok in H as (d & _ & H). apply bind_Ok in H as (ti & _ & H).
  destruct (timer ti) as [|a b c f]; [by injection H as <-|].
  destruct (c && _); [|by injection H as <-].
  apply bind_Ok in H as (w1 & Hput & H).
  assert (HQ1 : Q w1).
  { eapply Q_core; [|exact HQ]. by rewrite (core_put_timeout _ _ _ _ _ Hput). }
  destruct (f =? nullptr)%N; [by injection H as <-|].
  apply bind_Ok in H as (w2 & Hc & [= <-]). simpl. by eapply call_keeps.
Qed.

Lemma poll_timers_keeps fuel w w' : Q w -> poll_timers invoke fuel w = Ok w' -> Q w'.
Proof.
  unfold poll_timers. apply for_loop_inv. clear w w'.
  intros j w w' HQ H.
  apply bind_Ok in H as (d & _ & H). apply bind_Ok in H as (ti & _ & H).
  destruct (active ti); [|by injection H as <-].
  apply bind_Ok in H as (r & Hr & H).
  apply TimerImplementation_update_keeps in Hr; [|done].
  destruct (fst r); [by eapply onTimeout_keeps|by injection H as <-].
Qed.

Ltac loop_keeps :=
  apply for_loop_inv;
  let j := fresh "j" in let w := fresh "w" in let w' := fresh "w'" in
  let HQ := fresh "HQ" in let H := fresh "H" in
  intros j w w' HQ H;
  repeat (apply bind_Ok in H as (? & _ & H));
  by eapply call_keeps.

Lemma run_before_keeps fuel s w w' : Q w -> run_before invoke fuel s w = Ok w' -> Q w'.
Proof. unfold run_before. loop_keeps. Qed.
Lemma run_exits_keeps fuel s w w' : Q w -> run_exits invoke fuel s w = Ok w' -> Q w'.
Proof. unfold run_exits. loop_keeps. Qed.
Lemma run_enters_keeps fuel w w' : Q w -> run_enters invoke fuel w = Ok w' -> Q w'.
Proof. unfold run_enters. loop_keeps. Qed.
Lemma run_after_keeps fuel w w' : Q w -> run_after invoke fuel w = Ok w' -> Q w'.
Proof. unfold run_after. loop_keeps. Qed.
Lemma run_onStates_keeps fuel w w' : Q w -> run_onStates invoke fuel w = Ok w' -> Q w'.
Proof. unfold run_onStates. loop_keeps. Qed.

Lemma stop_timers_keeps w w' : Q w -> stop_timers w = Ok w' -> Q w'.
Proof.
  intros HQ H. unfold stop_timers in H. apply bind_Ok in H as (d & _ & [= <-]).
  eapply Q_core; [|exact HQ]. reflexivity.
Qed.

Lemma start_timers_keeps p w w' : Q w -> start_timers p w = Ok w' -> Q w'.
Proof.
  intros HQ H. unfold start_timers in H. apply bind_Ok in H as (d & _ & [= <-]).
  eapply Q_core; [|exact HQ]. by destruct (debugEnabled (machine w)).
Qed.

End Invariants.

(** A transition: [Q] before the fields are written, [Q2] after. *)
Lemma setState_transition invoke (Q Q2 : World -> Prop) p fuel s w w' :
  core_only Q -> kept_by invoke Q -> core_only Q2 -> kept_by invoke Q2 ->
  (forall w3, Q w3 -> Q2 (with_machine (enter_state s (millis w3)) w3)) ->
  isValidState s w = true -> s <> currentState (machine w) ->
  Q w -> setState p invoke fuel s w = Ok w' -> Q2 w'.
Proof.
  intros HQc HQk HQ2c HQ2k Hswap Hv Hne HQ. unfold setState.
  rewrite Hv, (proj2 (N.eqb_neq _ _) Hne); simpl. intros H.
  apply bind_Ok in H as (w1 & H1 & H). apply bind_Ok in H as (w2 & H2 & H).
  apply bind_Ok in H as (w3 & H3 & H). apply bind_Ok in H as (w5 & H5 & H).
  apply bind_Ok in H as (w6 & H6 & H).
  eapply run_after_keeps; [done..| |exact H].
  eapply start_timers_keeps; [done| |exact H6].
  eapply run_enters_keeps; [done..| |exact H5].
  apply Hswap.
  eapply run_exits_keeps; [done..| |exact H3].
  eapply stop_timers_keeps; [done| |exact H2].
  by eapply run_before_keeps.
Qed.

Lemma quiet_keeps_core p invoke fuel op w w' :
  quiet op = true -> perform p invoke fuel op w = Ok w' -> core w' = core w.
Proof.
  destruct op; simpl; try discriminate; intros _;
    unfold configureState, dropped, addTimeout, addOnEnter, addOnState, addOnExit,
      removeTimeout, removeOnEnter, removeOnState, removeOnExit,
      addBeforeStateChangeHandler, addAfterStateChangeHandler,
      removeBeforeStateChangeHandler, removeAfterStateChangeHandler, setDebug.
  all: intros H.
  all: repeat first
    [ progress simplify_eq/=
    | match goal with
      | H : bind _ _ = Ok _ |- _ => apply bind_Ok in H as (? & ? & H)
      | H : context [if ?b then _ else _] |- _ => destruct b eqn:?
      | H : context [match ?o with Some _ => _ | None => _ end] |- _ => destruct o as [[??]|] eqn:?
      end ].
  all: try reflexivity.
  all: repeat match goal with
       | |- context [if ?b then _ else _] => destruct b
       | |- context [match ?o with Some _ => _ | None => _ end] => destruct o as [[??]|]
       end; reflexivity.
Qed.

Lemma perform_keeps_valid p invoke fuel op w w' :
  keeps_valid_states invoke ->
  valid_states w -> perform p invoke fuel op w = Ok w' ->
  valid_states w' /\ numStates (machine w') = numStates (machine w).
Proof.
  intros Hk Hvalid Hop.
  set (n := numStates (machine w)).
  set (Q := fun w0 : World =>
              numStates (machine w0) = n /\
              (currentState (machine w0) < n)%N /\ (previousState (machine w0) < n)%N).
  assert (HQc : core_only Q).
  { intros w1 w2 Hc (H1 & H2 & H3). unfold core in Hc.
    injection Hc as E1 E2 E3 _. unfold Q. by rewrite <- E1, <- E2, <- E3. }
  assert (HQk : kept_by invoke Q).
  { intros f args w1 w2 Hi (H1 & H2 & H3).
    destruct (Hk f args w1 w2) as ([Hv1 Hv2] & Hn); [split; by rewrite H1|done|].
    unfold Q. rewrite Hn, H1 in Hv1, Hv2. by rewrite Hn, H1. }
  assert (HQ : Q w) by (destruct Hvalid; by repeat split).
  assert (HQ' : Q w'); [|destruct HQ' as (Hn & H1 & H2); unfold valid_states; by rewrite Hn].
  destruct (quiet op) eqn:Hq.
  { eapply HQc; [|exact HQ]. symmetry. by eapply quiet_keeps_core. }
  destruct op; simpl in Hq, Hop; try discriminate.
  - destruct (isValidState newState w) eqn:Hv;
      [|unfold setState in Hop; rewrite Hv in Hop; by simplify_eq/=].
    destruct (decide (newState = currentState (machine w))) as [->|Hne];
      [unfold setState in Hop; rewrite Hv, N.eqb_refl in Hop; by simplify_eq/=|].
    eapply (setState_transition invoke Q Q); [done..| | | | |exact Hop]; try done.
    intros w3 (H1 & H2 & H3). unfold Q; simpl. split; [done|]. split; [|done].
    by apply isValidState_lt.
  - unfold update in Hop.
    apply bind_Ok in Hop as (w1 & H1 & Hop). apply bind_Ok in Hop as (w2 & H2 & [= <-]).
    assert (HQ1 : Q w1).
    { destruct (is_esp p); [by simplify_eq|]. by eapply poll_timers_keeps. }
    by eapply (run_onStates_keeps invoke Q HQc HQk) in H2.
  - by eapply onTimeout_keeps.
Qed.


(** ** C4: the state ids stay valid *)

(** C4: a machine constructed with [numStates > 0] has valid [currentState]
    and [previousState], and every operation of the public interface that
    returns keeps them valid (and keeps [numStates]), provided the
    application code it runs does. *)
Theorem C4_state_ids_stay_valid p invoke :
  keeps_valid_states invoke ->
  (forall n now, (0 < n)%N ->
     exists w0, construct n now = Ok w0 /\ valid_states w0) /\
  (forall fuel op w w',
     valid_states w -> perform p invoke fuel op w = Ok w' ->
     valid_states w' /\ numStates (machine w') = numStates (machine w)).
Proof.
  intros Hk. split.
  - intros n now Hn. eexists; split; [reflexivity|]. by split.
  - intros fuel op w w'. by apply perform_keeps_valid.
Qed.

Lemma passive_keeps_valid_states : keeps_valid_states passive.
Proof. by intros f args w w' Hv [= <-]. Qed.

(** A callback that itself calls [setState] keeps the state ids valid. *)
Lemma reentrant_keeps_valid_states p : keeps_valid_states (reentrant p).
Proof.
  intros f args w w' Hv H. unfold reentrant in H.
  destruct (f =? 5)%N; [|by injection H as <-].
  exact (perform_keeps_valid p passive 8 (SetState 1%N) w w'
           passive_keeps_valid_states Hv H).
Qed.

Lemma C4_state_ids_stay_valid_witness :
  valid_states fresh3 /\
  match perform RP2040 (reentrant RP2040) 4 (SetState 2%N) fresh3 with
  | Ok w' => valid_states w' /\ getCurrentState w' = 2%N
  | _ => False
  end.
Proof.
  destruct (C4_state_ids_stay_valid RP2040 (reentrant RP2040)
              (reentrant_keeps_valid_states RP2040)) as [Hc Hop].
  assert (Hv : valid_states fresh3).
  { destruct (Hc 3%N 1000%Z) as (w0 & [= <-] & Hv); [reflexivity|exact Hv]. }
  split; [exact Hv|].
  destruct (perform RP2040 (reentrant RP2040) 4 (SetState 2%N) fresh3)
    as [w'| |] eqn:H; [|vm_compute in H; discriminate..].
  split; [exact (proj1 (Hop 4 (SetState 2%N) fresh3 w' Hv H))|].
  vm_compute in H. by injection H as <-.
Defined.

(** Every world reached from a construction with [numStates > 0] has valid
    state ids. *)
Corollary reachable_valid_states p invoke fuel n now ops w0 w :
  keeps_valid_states invoke -> (0 < n)%N ->
  construct n now = Ok w0 -> perform_all p invoke fuel ops w0 = Ok w ->
  valid_states w.
Proof.
  intros Hk Hn [= <-].
  assert (Hv : valid_states
                 (mkWorld
                    (mkEventStateMachine 0%N 0%N true
                       (replicate (N.to_nat n) (mkStateDefinition [] [] [] []))
                       n now false [] []) now [] [])) by by split.
  revert Hv. generalize (mkWorld
                    (mkEventStateMachine 0%N 0%N true
                       (replicate (N.to_nat n) (mkStateDefinition [] [] [] []))
                       n now false [] []) now [] []).
  induction ops as [|op ops IH]; intros w1 Hv; simpl; [by intros [= <-]|].
  intros H. apply bind_Ok in H as (w2 & H2 & H).
  apply (IH w2); [|exact H]. by eapply perform_keeps_valid.
Qed.

(** ** C9: the [stateChanged] flag *)





(** ** What the engine keeps of the registry *)

Lemma registry_emit e w : registry (emit e w) = registry w.
Proof. reflexivity. Qed.
Lemma registry_print d w : registry (print d w) = registry w.
Proof. reflexivity. Qed.

Lemma registry_put_state s d d' w :
  states (machine w) !! N.to_nat s = Some d -> reg_of d' = reg_of d ->
  registry (put_state s d' w) = registry w.
Proof.
  intros Hd Hreg. unfold registry; simpl. f_equal.
  rewrite list_fmap_insert, Hreg. apply list_insert_id.
  by rewrite list_lookup_fmap, Hd.
Qed.

Lemma reg_of_insert_timeout d i ti ti' :
  timeouts d !! i = Some ti ->
  duration ti' = duration ti -> callback ti' = callback ti ->
  reg_of (set_timeouts (<[i := ti']> (timeouts d)) d) = reg_of d.
Proof.
  intros Hti Hd Hc. unfold reg_of; simpl. do 3 f_equal.
  rewrite list_fmap_insert, Hd, Hc. apply list_insert_id.
  by rewrite list_lookup_fmap, Hti.
Qed.

Lemma registry_put_timeout s i ti ti' d w w' :
  states (machine w) !! N.to_nat s = Some d -> timeouts d !! i = Some ti ->
  duration ti' = duration ti -> callback ti' = callback ti ->
  put_timeout s i ti' w = Ok w' ->
  registry w' = registry w /\ core w' = core w.
Proof.
  intros Hd Hti Hdur Hcb H. unfold put_timeout, state_at in H. rewrite Hd in H.
  injection H as <-. split; [|reflexivity].
  apply registry_put_state with d; [done|]. by eapply reg_of_insert_timeout.
Qed.

Lemma reg_of_cancel d : reg_of (set_timeouts (cancel <$> timeouts d) d) = reg_of d.
Proof.
  unfold reg_of; simpl. do 3 f_equal.
  rewrite <- list_fmap_compose. by apply list_fmap_ext.
Qed.

Lemma reg_of_arm p s now d :
  reg_of (set_timeouts (imap (arm p s now) (timeouts d)) d) = reg_of d.
Proof.
  unfold reg_of; simpl. do 3 f_equal.
  rewrite fmap_imap, <- imap_const. apply imap_ext.
  intros i ti _. unfold arm; simpl. by destruct (is_esp p).
Qed.

Section Stable.

Variable invoke : fnptr -> list uint8_t -> World -> result World.
Variable Q : World -> Prop.
Hypothesis Q_stable : stable Q.
Hypothesis Q_kept : kept_by invoke Q.

Lemma stable_call f args w w' : Q w -> call invoke f args w = Ok w' -> Q w'.
Proof.
  intros HQ Hc. unfold call in Hc. eapply Q_kept; [exact Hc|].
  eapply Q_stable; [| |exact HQ]; reflexivity.
Qed.

Lemma stable_onTimeout s i w w' : Q w -> onTimeout invoke s i w = Ok w' -> Q w'.
Proof.
  intros HQ. unfold onTimeout.
  destruct (_ =? _)%N; [|by intros [= <-]].
  intros H. apply bind_Ok in H as (d & Hd & H). apply of_option_Ok in Hd.
  destruct (decide _); [|by injection H as <-].
  apply bind_Ok in H as (ti & Hti & H). apply of_option_Ok in Hti.
  apply bind_Ok in H as (w2 & Hput & H).
  eapply stable_call; [|exact H].
  apply (registry_put_timeout _ _ ti _ d) in Hput as [Hr Hc]; [|by destruct (debugEnabled (machine w))|done..].
  eapply Q_stable; [| |exact HQ]; [rewrite Hc|rewrite Hr]; by destruct (debugEnabled (machine w)).
Qed.

Lemma stable_timer_update s i w r :
  Q w -> TimerImplementation_update invoke s i w = Ok r -> Q (snd r).
Proof.
  intros HQ. unfold TimerImplementation_update. intros H.
  apply bind_Ok in H as (d & Hd & H). apply of_option_Ok in Hd.
  apply bind_Ok in H as (ti & Hti & H). apply of_option_Ok in Hti.
  destruct (timer ti) as [|a b c f]; [by injection H as <-|].
  destruct (c && _); [|by injection H as <-].
  apply bind_Ok in H as (w1 & Hput & H).
  apply (registry_put_timeout _ _ ti _ d) in Hput as [Hr Hc]; [|done..].
  assert (HQ1 : Q w1) by (eapply Q_stable; [| |exact HQ]; by symmetry).
  destruct (f =? nullptr)%N; [by injection H as <-|].
  apply bind_Ok in H as (w2 & Hc2 & [= <-]). simpl. by eapply stable_call.
Qed.

Lemma stable_poll_timers fuel w w' : Q w -> poll_timers invoke fuel w = Ok w' -> Q w'.
Proof.
  unfold poll_timers. apply for_loop_inv. clear w w'.
  intros j w w' HQ H.
  apply bind_Ok in H as (d & _ & H). apply bind_Ok in H as (ti & _ & H).
  destruct (active ti); [|by injection H as <-].
  apply bind_Ok in H as (r & Hr & H).
  apply stable_timer_update in Hr; [|done].
  destruct (fst r); [by eapply stable_onTimeout|by injection H as <-].
Qed.

Ltac stable_loop :=
  apply for_loop_inv;
  let j := fresh "j" in let w := fresh "w" in let w' := fresh "w'" in
  let HQ := fresh "HQ" in let H := fresh "H" in
  intros j w w' HQ H;
  repeat (apply bind_Ok in H as (? & _ & H));
  by eapply stable_call.

Lemma stable_run_before fuel s w w' : Q w -> run_before invoke fuel s w = Ok w' -> Q w'.
Proof. unfold run_before. stable_loop. Qed.
Lemma stable_run_exits fuel s w w' : Q w -> run_exits invoke fuel s w = Ok w' -> Q w'.
Proof. unfold run_exits. stable_loop. Qed.
Lemma stable_run_enters fuel w w' : Q w -> run_enters invoke fuel w = Ok w' -> Q w'.
Proof. unfold run_enters. stable_loop. Qed.
Lemma stable_run_after fuel w w' : Q w -> run_after invoke fuel w = Ok w' -> Q w'.
Proof. unfold run_after. stable_loop. Qed.
Lemma stable_run_onStates fuel w w' : Q w -> run_onStates invoke fuel w = Ok w' -> Q w'.
Proof. unfold run_onStates. stable_loop. Qed.

Lemma stable_stop_timers w w' : Q w -> stop_timers w = Ok w' -> Q w'.
Proof.
  intros HQ H. unfold stop_timers in H.
  apply bind_Ok in H as (d & Hd & [= <-]). apply of_option_Ok in Hd.
  eapply Q_stable; [| |exact HQ]; [reflexivity|].
  symmetry. rewrite <- (registry_put_state _ d _ w Hd (reg_of_cancel d)). reflexivity.
Qed.

Lemma stable_start_timers p w w' : Q w -> start_timers p w = Ok w' -> Q w'.
Proof.
  intros HQ H. unfold start_timers in H.
  apply bind_Ok in H as (d & Hd & [= <-]). apply of_option_Ok in Hd.
  eapply Q_stable; [| |exact HQ]; [by destruct (debugEnabled (machine w))|].
  symmetry.
  rewrite <- (registry_put_state _ d _ w Hd
                (reg_of_arm p (currentState (machine w)) (millis w) d)).
  by destruct (debugEnabled (machine w)).
Qed.

(** The three operations that run callbacks keep [Q] when the writes of
    [setState] (lines 266-269) and of [update] (its last line) do. *)
Lemma stable_setState p fuel s w w' :
  (forall w3, Q w3 -> isValidState s w = true ->
     Q (with_machine (enter_state s (millis w3)) w3)) ->
  Q w -> setState p invoke fuel s w = Ok w' -> Q w'.
Proof.
  intros Hswap HQ. unfold setState.
  destruct (isValidState s w) eqn:Hv; simpl; [|by intros [= <-]].
  destruct (s =? _)%N; [by intros [= <-]|]. intros H.
  apply bind_Ok in H as (w1 & H1 & H). apply bind_Ok in H as (w2 & H2 & H).
  apply bind_Ok in H as (w3 & H3 & H). apply bind_Ok in H as (w5 & H5 & H).
  apply bind_Ok in H as (w6 & H6 & H).
  eapply stable_run_after; [|exact H].
  eapply stable_start_timers; [|exact H6].
  eapply stable_run_enters; [|exact H5].
  apply Hswap; [|done].
  eapply stable_run_exits; [|exact H3].
  eapply stable_stop_timers; [|exact H2].
  by eapply stable_run_before.
Qed.

Lemma stable_update p fuel w w' :
  (forall w2, Q w2 -> Q (with_machine (set_stateChanged false) w2)) ->
  Q w -> update p invoke fuel w = Ok w' -> Q w'.
Proof.
  intros Hclear HQ H. unfold update in H.
  apply bind_Ok in H as (w1 & H1 & H). apply bind_Ok in H as (w2 & H2 & [= <-]).
  apply Hclear. eapply stable_run_onStates; [|exact H2].
  destruct (is_esp p); [by injection H1 as <-|]. by eapply stable_poll_timers.
Qed.

End Stable.

(** ** The operations that run no callback *)

Lemma elem_of_push_back {T : Type} p (l : list T) (f x : T) :
  x ∈ push_back p l f -> x = f \/ x ∈ l.
Proof.
  unfold push_back. destruct (has_vector p); [|destruct (decide _)];
    rewrite ?elem_of_app, ?list_elem_of_singleton; tauto.
Qed.

Lemma elem_of_erase {T : Type} i (l : list T) (x : T) : x ∈ erase i l -> x ∈ l.
Proof. apply list_elem_of_delete_inv. Qed.

Lemma edited_onEnters_add p f d :
  edited p f d (set_onEnters (push_back p (onEnters d) f) d).
Proof.
  split; [|by left]. intros x. unfold state_callbacks; simpl.
  rewrite !elem_of_app. intros [?|[Hx|[?|?]]]; try tauto.
  apply elem_of_push_back in Hx. tauto.
Qed.

Lemma edited_onStates_add p f d :
  edited p f d (set_onStates (push_back p (onStates d) f) d).
Proof.
  split; [|by left]. intros x. unfold state_callbacks; simpl.
  rewrite !elem_of_app. intros [?|[?|[Hx|?]]]; try tauto.
  apply elem_of_push_back in Hx. tauto.
Qed.

Lemma edited_onExits_add p f d :
  edited p f d (set_onExits (push_back p (onExits d) f) d).
Proof.
  split; [|by left]. intros x. unfold state_callbacks; simpl.
  rewrite !elem_of_app. intros [?|[?|[?|Hx]]]; try tauto.
  apply elem_of_push_back in Hx. tauto.
Qed.

Lemma edited_timeouts_add p f d t s i :
  edited p f d
    (set_timeouts (push_back p (timeouts d) (mkTimeoutInfo t f (new_timer p) false s i)) d).
Proof.
  split.
  - intros x. unfold state_callbacks; simpl.
    rewrite !elem_of_app. intros [Hx|?]; [|tauto].
    apply list_elem_of_fmap in Hx as (ti & -> & Hti).
    apply elem_of_push_back in Hti as [->|Hti]; [by left|].
    right. left. by apply list_elem_of_fmap_2.
  - intros ti Hti. simpl in Hti. apply elem_of_push_back in Hti as [->|Hti]; [|by left].
    by right.
Qed.

Lemma edited_onEnters_remove p f d i :
  edited p f d (set_onEnters (erase i (onEnters d)) d).
Proof.
  split; [|by left]. intros x. unfold state_callbacks; simpl.
  rewrite !elem_of_app. intros [?|[Hx|[?|?]]]; try tauto.
  apply elem_of_erase in Hx. tauto.
Qed.

Lemma edited_onStates_remove p f d i :
  edited p f d (set_onStates (erase i (onStates d)) d).
Proof.
  split; [|by left]. intros x. unfold state_callbacks; simpl.
  rewrite !elem_of_app. intros [?|[?|[Hx|?]]]; try tauto.
  apply elem_of_erase in Hx. tauto.
Qed.

Lemma edited_onExits_remove p f d i :
  edited p f d (set_onExits (erase i (onExits d)) d).
Proof.
  split; [|by left]. intros x. unfold state_callbacks; simpl.
  rewrite !elem_of_app. intros [?|[?|[?|Hx]]]; try tauto.
  apply elem_of_erase in Hx. tauto.
Qed.

Lemma erase_found (t : Z) (l : list TimeoutInfo) i ti :
  list_find (fun x => duration x = t) l = Some (i, ti) ->
  exists l1 l2, l = l1 ++ ti :: l2 /\ i = length l1 /\
    erase i (<[i := cancel ti]> l) = l1 ++ l2.
Proof.
  intros Hfind.
  destruct (list_find_split (fun x => duration x = t) l)
    as [[Hnone _]|(l1 & x & l2 & Hl & _ & _ & Hsome)]; [congruence|].
  rewrite Hsome in Hfind. injection Hfind as <- <-.
  exists l1, l2. split; [done|]. split; [done|].
  rewrite Hl. apply erase_cancelled.
Qed.

Lemma edited_timeouts_remove p f d t i ti :
  list_find (fun x => duration x = t) (timeouts d) = Some (i, ti) ->
  edited p f d (set_timeouts (erase i (<[i := cancel ti]> (timeouts d))) d).
Proof.
  intros Hfind. destruct (erase_found _ _ _ _ Hfind) as (l1 & l2 & Hl & _ & ->).
  split.
  - intros x. unfold state_callbacks; simpl. rewrite Hl.
    rewrite !fmap_app, !elem_of_app, fmap_cons, elem_of_cons. tauto.
  - intros x. simpl. rewrite Hl, !elem_of_app, elem_of_cons. tauto.
Qed.

Lemma configured_trans p w1 w2 w3 :
  configured p w1 w2 -> configured p w2 w3 -> configured p w1 w3.
Proof.
  intros H12 H23. induction H23 as [w2| | | | |]; [done|..].
  - eapply configured_state; eauto.
  - eapply configured_before; eauto.
  - eapply configured_after; eauto.
  - apply configured_debug; eauto.
  - apply configured_advance; eauto.
Qed.

Lemma configured_put p w s d d' f :
  isValidState s w = true -> states (machine w) !! N.to_nat s = Some d ->
  f <> nullptr -> edited p f d d' -> configured p w (put_state s d' w).
Proof.
  intros Hv Hd Hf He. rewrite <- (emits_nil (put_state s d' w)).
  eapply configured_state; [apply configured_refl|done..].
Qed.

Lemma one_ne_nullptr : (1%N : fnptr) <> nullptr.
Proof. discriminate. Qed.

Lemma addOnEnter_configured p s f w r :
  addOnEnter p s f w = Ok r -> configured p w (snd r).
Proof.
  unfold addOnEnter. destruct (negb _) eqn:Hv; simpl; [intros [= <-]; constructor|].
  destruct (N.eqb_spec f nullptr) as [|Hf]; [intros [= <-]; constructor|].
  intros H. apply bind_Ok in H as (d & Hd & [= <-]). apply of_option_Ok in Hd.
  apply negb_false_iff in Hv. simpl.
  eapply configured_put; eauto using edited_onEnters_add.
Qed.

Lemma addOnState_configured p s f w r :
  addOnState p s f w = Ok r -> configured p w (snd r).
Proof.
  unfold addOnState. destruct (negb _) eqn:Hv; simpl; [intros [= <-]; constructor|].
  destruct (N.eqb_spec f nullptr) as [|Hf]; [intros [= <-]; constructor|].
  intros H. apply bind_Ok in H as (d & Hd & [= <-]). apply of_option_Ok in Hd.
  apply negb_false_iff in Hv. simpl.
  eapply configured_put; eauto using edited_onStates_add.
Qed.

Lemma addOnExit_configured p s f w r :
  addOnExit p s f w = Ok r -> configured p w (snd r).
Proof.
  unfold addOnExit. destruct (negb _) eqn:Hv; simpl; [intros [= <-]; constructor|].
  destruct (N.eqb_spec f nullptr) as [|Hf]; [intros [= <-]; constructor|].
  intros H. apply bind_Ok in H as (d & Hd & [= <-]). apply of_option_Ok in Hd.
  apply negb_false_iff in Hv. simpl.
  eapply configured_put; eauto using edited_onExits_add.
Qed.

Lemma addTimeout_configured p s t f w r :
  addTimeout p s t f w = Ok r -> configured p w (snd r).
Proof.
  unfold addTimeout. destruct (negb _) eqn:Hv; simpl; [intros [= <-]; constructor|].
  destruct (N.eqb_spec f nullptr) as [|Hf]; [intros [= <-]; constructor|].
  intros H. apply bind_Ok in H as (d & Hd & [= <-]). apply of_option_Ok in Hd.
  apply negb_false_iff in Hv. simpl.
  eapply configured_put; eauto using edited_timeouts_add.
Qed.

Lemma removeOnEnter_configured p s f w r :
  removeOnEnter s f w = Ok r -> configured p w (snd r).
Proof.
  unfold removeOnEnter. destruct (negb _) eqn:Hv; simpl; [intros [= <-]; constructor|].
  intros H. apply bind_Ok in H as (d & Hd & H). apply of_option_Ok in Hd.
  apply negb_false_iff in Hv.
  destruct (list_find _ _) as [[i x]|]; injection H as <-; [|constructor]. simpl.
  eapply configured_put; eauto using edited_onEnters_remove, one_ne_nullptr.
Qed.

Lemma removeOnState_configured p s f w r :
  removeOnState s f w = Ok r -> configured p w (snd r).
Proof.
  unfold removeOnState. destruct (negb _) eqn:Hv; simpl; [intros [= <-]; constructor|].
  intros H. apply bind_Ok in H as (d & Hd & H). apply of_option_Ok in Hd.
  apply negb_false_iff in Hv.
  destruct (list_find _ _) as [[i x]|]; injection H as <-; [|constructor]. simpl.
  eapply configured_put; eauto using edited_onStates_remove, one_ne_nullptr.
Qed.

Lemma removeOnExit_configured p s f w r :
  removeOnExit s f w = Ok r -> configured p w (snd r).
Proof.
  unfold removeOnExit. destruct (negb _) eqn:Hv; simpl; [intros [= <-]; constructor|].
  intros H. apply bind_Ok in H as (d & Hd & H). apply of_option_Ok in Hd.
  apply negb_false_iff in Hv.
  destruct (list_find _ _) as [[i x]|]; injection H as <-; [|constructor]. simpl.
  eapply configured_put; eauto using edited_onExits_remove, one_ne_nullptr.
Qed.

Lemma removeTimeout_configured p s t w r :
  removeTimeout s t w = Ok r -> configured p w (snd r).
Proof.
  unfold removeTimeout. destruct (negb _) eqn:Hv; simpl; [intros [= <-]; constructor|].
  intros H. apply bind_Ok in H as (d & Hd & H). apply of_option_Ok in Hd.
  apply negb_false_iff in Hv.
  destruct (list_find _ _) as [[i x]|] eqn:Hfind; injection H as <-; [|constructor]. simpl.
  rewrite emit_emits.
  eapply configured_state;
    eauto using configured_refl, edited_timeouts_remove, one_ne_nullptr.
Qed.

Lemma configureState_configured p s t e d x o w w' :
  configureState p s t e d x o w = Ok w' -> configured p w w'.
Proof.
  unfold configureState. destruct (negb _); [intros [= <-]; constructor|].
  intros H.
  apply bind_Ok in H as (w1 & H1 & H). apply bind_Ok in H as (w2 & H2 & H).
  apply bind_Ok in H as (w3 & H3 & H).
  assert (C1 : configured p w w1).
  { destruct (e =? nullptr)%N; [injection H1 as <-; constructor|].
    apply bind_Ok in H1 as (r & Hr & [= <-]). by eapply addOnEnter_configured. }
  assert (C2 : configured p w1 w2).
  { destruct (d =? nullptr)%N; [injection H2 as <-; constructor|].
    apply bind_Ok in H2 as (r & Hr & [= <-]). by eapply addOnState_configured. }
  assert (C3 : configured p w2 w3).
  { destruct (x =? nullptr)%N; [injection H3 as <-; constructor|].
    apply bind_Ok in H3 as (r & Hr & [= <-]). by eapply addOnExit_configured. }
  assert (C4 : configured p w3 w').
  { destruct (_ && _); [|injection H as <-; constructor].
    apply bind_Ok in H as (r & Hr & [= <-]). by eapply addTimeout_configured. }
  eauto using configured_trans.
Qed.

(** Every operation that runs no callback leads to a [configured] world. *)
Lemma quiet_configured p invoke fuel op w w' :
  quiet op = true -> perform p invoke fuel op w = Ok w' -> configured p w w'.
Proof.
  destruct op; simpl; try discriminate; intros _ H; unfold dropped in H.
  - by eapply configureState_configured.
  - apply bind_Ok in H as (r & Hr & [= <-]). by eapply addTimeout_configured.
  - apply bind_Ok in H as (r & Hr & [= <-]). by eapply addOnEnter_configured.
  - apply bind_Ok in H as (r & Hr & [= <-]). by eapply addOnState_configured.
  - apply bind_Ok in H as (r & Hr & [= <-]). by eapply addOnExit_configured.
  - apply bind_Ok in H as (r & Hr & [= <-]). by eapply removeTimeout_configured.
  - apply bind_Ok in H as (r & Hr & [= <-]). by eapply removeOnEnter_configured.
  - apply bind_Ok in H as (r & Hr & [= <-]). by eapply removeOnState_configured.
  - apply bind_Ok in H as (r & Hr & [= <-]). by eapply removeOnExit_configured.
  - injection H as <-. unfold addBeforeStateChangeHandler.
    destruct (N.eqb_spec handler nullptr) as [|Hf]; [constructor|].
    eapply (configured_before _ _ _ _ handler); [constructor|done|].
    intros x Hx. by apply elem_of_push_back in Hx.
  - injection H as <-. unfold addAfterStateChangeHandler.
    destruct (N.eqb_spec handler nullptr) as [|Hf]; [constructor|].
    eapply (configured_after _ _ _ _ handler); [constructor|done|].
    intros x Hx. by apply elem_of_push_back in Hx.
  - injection H as <-. unfold removeBeforeStateChangeHandler.
    destruct (list_find _ _) as [[i x]|]; [|constructor]. simpl.
    eapply (configured_before _ _ _ _ 1%N); [constructor|done|].
    intros y Hy. right. by apply elem_of_erase in Hy.
  - injection H as <-. unfold removeAfterStateChangeHandler.
    destruct (list_find _ _) as [[i x]|]; [|constructor]. simpl.
    eapply (configured_after _ _ _ _ 1%N); [constructor|done|].
    intros y Hy. right. by apply elem_of_erase in Hy.
  - injection H as <-. apply configured_debug. constructor.
  - injection H as <-. apply configured_advance. constructor.
Qed.

Lemma configured_frame p w w' :
  configured p w w' ->
  core w' = core w /\ length (states (machine w')) = length (states (machine w)).
Proof.
  induction 1 as [w|w w1 s d d' f es _ [IHc IHl] _ _ _ _
                  |w w1 l f _ [IHc IHl] _ _|w w1 l f _ [IHc IHl] _ _
                  |w w1 b _ [IHc IHl]|w w1 ms _ [IHc IHl]];
    [done|split..]; try exact IHc; try exact IHl.
  simpl. by rewrite length_insert.
Qed.

Lemma registered_put_state s d d' w x :
  states (machine w) !! N.to_nat s = Some d ->
  x ∈ registered (put_state s d' w) ->
  x ∈ state_callbacks d' \/ x ∈ registered w.
Proof.
  intros Hd. unfold registered; simpl. rewrite !elem_of_app.
  intros [?|[?|Hx]]; [tauto..|].
  apply list_elem_of_join in Hx as (l & Hx & Hl).
  apply list_elem_of_lookup in Hl as (i & Hl).
  rewrite list_lookup_fmap in Hl.
  destruct (decide (i = N.to_nat s)) as [->|Hne].
  - rewrite list_lookup_insert_eq in Hl by (by eapply lookup_lt_Some).
    injection Hl as <-. by left.
  - rewrite list_lookup_insert_ne in Hl by done.
    right. right. right. apply list_elem_of_join. exists l. split; [done|].
    apply list_elem_of_lookup. exists i. by rewrite list_lookup_fmap.
Qed.

Lemma registered_state s d w x :
  states (machine w) !! N.to_nat s = Some d -> x ∈ state_callbacks d -> x ∈ registered w.
Proof.
  intros Hd Hx. unfold registered. rewrite !elem_of_app. right. right.
  apply list_elem_of_join. exists (state_callbacks d). split; [done|].
  apply list_elem_of_fmap_2. by eapply list_elem_of_lookup_2.
Qed.

Lemma configured_no_null p w w' :
  configured p w w' -> nullptr ∉ registered w -> nullptr ∉ registered w'.
Proof.
  induction 1 as [w|w w1 s d d' f es _ IH Hv Hd Hf [He _]
                  |w w1 l f _ IH Hf Hl|w w1 l f _ IH Hf Hl
                  |w w1 b _ IH|w w1 ms _ IH]; intros Hnull; [done|..].
  - specialize (IH Hnull). intros Hin.
    change (registered (emits es (put_state s d' w1)))
      with (registered (put_state s d' w1)) in Hin.
    apply (registered_put_state _ d) in Hin as [Hin|Hin]; [|done..].
    apply He in Hin as [Heq|Hin]; [by apply Hf|].
    apply IH. by eapply registered_state.
  - specialize (IH Hnull). unfold registered in *; simpl in *.
    rewrite !elem_of_app in *. intros [Hin|?]; [|tauto].
    apply Hl in Hin as [Heq|Hin]; [by apply Hf|tauto].
  - specialize (IH Hnull). unfold registered in *; simpl in *.
    rewrite !elem_of_app in *. intros [?|[Hin|?]]; [tauto| |tauto].
    apply Hl in Hin as [Heq|Hin]; [by apply Hf|tauto].
  - by apply IH.
  - by apply IH.
Qed.

Lemma state_callbacks_reg_of d d' :
  reg_of d = reg_of d' -> state_callbacks d = state_callbacks d'.
Proof.
  unfold reg_of, state_callbacks. intros [= Ht -> -> ->]. f_equal.
  assert (H : snd <$> ((fun ti => (duration ti, callback ti)) <$> timeouts d)
            = snd <$> ((fun ti => (duration ti, callback ti)) <$> timeouts d'))
    by by rewrite Ht.
  rewrite <- !list_fmap_compose in H. exact H.
Qed.

Lemma registered_registry w w' : registry w = registry w' -> registered w = registered w'.
Proof.
  unfold registry, registered. intros [= -> -> Hs]. do 3 f_equal.
  revert Hs. generalize (states (machine w')).
  induction (states (machine w)) as [|d l IH]; intros [|d' l']; try done.
  rewrite !fmap_cons. intros H.
  pose proof (f_equal (hd (reg_of d)) H) as Hd.
  pose proof (f_equal (@tl _) H) as Hl. simpl in Hd, Hl.
  simpl. f_equal; [by apply state_callbacks_reg_of|by apply IH].
Qed.

(** ** The array of states, and what is registered, through every operation *)

(** The shape of [well_formed] for a fixed [numStates]. *)
Lemma sized_stable n :
  stable (fun w0 : World =>
            numStates (machine w0) = n /\
            length (states (machine w0)) = N.to_nat n /\
            (currentState (machine w0) < n)%N /\ (previousState (machine w0) < n)%N).
Proof.
  intros w1 w2 Hc Hr (H1 & H2 & H3 & H4). unfold core in Hc.
  injection Hc as E1 E2 E3 _. unfold registry in Hr. injection Hr as _ _ Hr.
  apply (f_equal length) in Hr. rewrite !length_fmap in Hr.
  by rewrite <- E1, <- E2, <- E3, <- Hr.
Qed.

Lemma sized_kept invoke n :
  keeps_well_formed invoke ->
  kept_by invoke (fun w0 : World =>
            numStates (machine w0) = n /\
            length (states (machine w0)) = N.to_nat n /\
            (currentState (machine w0) < n)%N /\ (previousState (machine w0) < n)%N).
Proof.
  intros Hk f args w1 w2 Hi (H1 & H2 & H3 & H4).
  destruct (Hk f args w1 w2) as ([Hl [Hv1 Hv2]] & Hn);
    [split; [|split]; by rewrite H1|done|].
  rewrite Hn, H1 in Hv1, Hv2, Hl. by rewrite Hn, H1.
Qed.

Lemma perform_well_formed p invoke fuel op w w' :
  keeps_well_formed invoke ->
  well_formed w -> perform p invoke fuel op w = Ok w' ->
  well_formed w' /\
  numStates (machine w') = numStates (machine w) /\
  length (states (machine w')) = length (states (machine w)).
Proof.
  intros Hk Hwf Hop.
  set (n := numStates (machine w)).
  set (Q := fun w0 : World =>
              numStates (machine w0) = n /\
              length (states (machine w0)) = N.to_nat n /\
              (currentState (machine w0) < n)%N /\ (previousState (machine w0) < n)%N).
  assert (HQs : stable Q) by apply sized_stable.
  assert (HQk : kept_by invoke Q) by by apply sized_kept.
  assert (HQ : Q w) by (destruct Hwf as [? [? ?]]; by repeat split).
  assert (HQ' : Q w').
  2: { destruct HQ' as (Hn & Hl & H1 & H2). destruct Hwf as [Hlw _].
       unfold well_formed, valid_states. rewrite Hn, Hl, Hlw. by repeat split. }
  destruct (quiet op) eqn:Hq.
  { apply quiet_configured in Hop; [|done].
    apply configured_frame in Hop as [Hc Hl]. destruct HQ as (H1 & H2 & H3 & H4).
    unfold core in Hc. injection Hc as E1 E2 E3 _.
    unfold Q. by rewrite E1, E2, E3, Hl. }
  destruct op; simpl in Hq, Hop; try discriminate.
  + eapply (stable_setState invoke Q HQs HQk); [|exact HQ|exact Hop].
    intros w3 (H1 & H2 & H3 & H4) Hv. unfold Q; simpl.
    split; [done|]. split; [done|]. split; [|done]. by apply isValidState_lt.
  + eapply (stable_update invoke Q HQs HQk); [|exact HQ|exact Hop].
    by intros w2 HQ2.
  + by eapply (stable_onTimeout invoke Q HQs HQk).
Qed.

(** X1: the array [states] keeps its [numStates] records and the state ids stay
    inside it, from construction on and through every operation of the
    public interface that returns, when the callbacks keep them. *)
Theorem well_formed_kept p invoke :
  keeps_well_formed invoke ->
  (forall n now, (0 < n)%N ->
     exists w0, construct n now = Ok w0 /\ well_formed w0) /\
  (forall fuel op w w',
     well_formed w -> perform p invoke fuel op w = Ok w' ->
     well_formed w' /\
     numStates (machine w') = numStates (machine w) /\
     length (states (machine w')) = length (states (machine w))).
Proof.
  intros Hk. split.
  - intros n now Hn. eexists; split; [reflexivity|].
    split; [simpl; by rewrite length_replicate|by split].
  - intros fuel op w w'. by apply perform_well_formed.
Qed.

Lemma passive_keeps_well_formed : keeps_well_formed passive.
Proof. by intros f args w w' Hwf [= <-]. Qed.

Lemma well_formed_kept_witness :
  well_formed fresh3 /\
  match perform RP2040 passive 4 (SetState 2%N) fresh3 with
  | Ok w' => well_formed w' /\ length (states (machine w')) = 3
  | _ => False
  end.
Proof.
  destruct (well_formed_kept RP2040 passive passive_keeps_well_formed) as [Hc Hop].
  assert (Hwf : well_formed fresh3).
  { destruct (Hc 3%N 1000%Z) as (w0 & [= <-] & Hwf); [reflexivity|exact Hwf]. }
  split; [exact Hwf|].
  destruct (perform RP2040 passive 4 (SetState 2%N) fresh3) as [w'| |] eqn:H;
    [|vm_compute in H; discriminate..].
  destruct (Hop 4 (SetState 2%N) fresh3 w' Hwf H) as (H1 & _ & H3).
  split; [exact H1|exact H3].
Defined.

(** X2: a transition, an [update] and a timeout dispatch never add, remove,
    reorder or replace what is registered (handlers, callbacks, timeout
    durations), when the callbacks they run do not. *)
Theorem engine_keeps_registry p invoke fuel op w w' :
  keeps_registry invoke ->
  quiet op = false ->
  perform p invoke fuel op w = Ok w' ->
  registry w' = registry w.
Proof.
  intros Hk Hq Hop.
  set (Q := fun w0 : World => registry w0 = registry w).
  assert (HQs : stable Q) by (intros w1 w2 _ Hr H; unfold Q; by rewrite <- Hr).
  assert (HQk : kept_by invoke Q).
  { intros f args w1 w2 Hi H. unfold Q. by rewrite (Hk _ _ _ _ Hi). }
  destruct op; simpl in Hq, Hop; try discriminate.
  - by eapply (stable_setState invoke Q HQs HQk); [| |exact Hop].
  - by eapply (stable_update invoke Q HQs HQk); [| |exact Hop].
  - by eapply (stable_onTimeout invoke Q HQs HQk); [|exact Hop].
Qed.

Lemma engine_keeps_registry_witness :
  match perform ESP passive 4 (SetState 1%N) (demo ESP) with
  | Ok w' => registry w' = registry (demo ESP)
  | _ => False
  end.
Proof.
  destruct (perform ESP passive 4 (SetState 1%N) (demo ESP)) as [w'| |] eqn:H;
    [|vm_compute in H; discriminate..].
  apply (engine_keeps_registry ESP passive 4 (SetState 1%N) (demo ESP) w');
    [by intros f args w0 w1 [= <-]|reflexivity|exact H].
Defined.

(** X3: no operation ever stores a null function pointer: if none is registered
    before an operation, none is after it (the add operations refuse
    [nullptr]), when the callbacks it runs store none either. A constructed
    machine has nothing registered. *)
Theorem no_null_callback_registered p invoke fuel op w w' :
  keeps_no_null invoke ->
  nullptr ∉ registered w ->
  perform p invoke fuel op w = Ok w' ->
  nullptr ∉ registered w'.
Proof.
  intros Hk Hnull Hop.
  destruct (quiet op) eqn:Hq.
  { apply quiet_configured in Hop; [|done]. by eapply configured_no_null. }
  set (Q := fun w0 : World => nullptr ∉ registered w0).
  assert (HQs : stable Q).
  { intros w1 w2 _ Hr H. unfold Q. by rewrite <- (registered_registry _ _ Hr). }
  destruct op; simpl in Hq, Hop; try discriminate.
  - by eapply (stable_setState invoke Q HQs Hk); [| |exact Hop].
  - by eapply (stable_update invoke Q HQs Hk); [| |exact Hop].
  - by eapply (stable_onTimeout invoke Q HQs Hk); [|exact Hop].
Qed.

Lemma no_null_callback_registered_witness :
  match perform Arduino passive 4 (AddOnEnter 1%N 7%N) fresh3 with
  | Ok w' => nullptr ∉ registered w'
  | _ => False
  end.
Proof.
  destruct (perform Arduino passive 4 (AddOnEnter 1%N 7%N) fresh3) as [w'| |] eqn:H;
    [|vm_compute in H; discriminate..].
  apply (no_null_callback_registered Arduino passive 4 (AddOnEnter 1%N 7%N) fresh3 w');
    [by intros f args w0 w1 [= <-]| |exact H].
  vm_compute. intros Hin. by apply elem_of_nil in Hin.
Defined.

(** ** No access outside the array *)

Lemma for_loop_defined (size : World -> result nat) (body : nat -> World -> result World)
    (Q : World -> Prop) :
  (forall w, Q w -> exists n, size w = Ok n) ->
  (forall j w n, Q w -> size w = Ok n -> j < n -> body j w <> Undefined) ->
  (forall j w w', Q w -> body j w = Ok w' -> Q w') ->
  forall fuel i w, Q w -> for_loop fuel size body i w <> Undefined.
Proof.
  intros Hsize Hdef Hkeep. induction fuel as [|fuel IH]; intros i w HQ; [done|].
  simpl. destruct (Hsize w HQ) as [n Hn]. rewrite Hn; simpl.
  destruct (decide (i < n)) as [Hi|Hi]; [|done].
  destruct (body i w) as [w1| |] eqn:Hb; simpl; [|done|].
  - apply IH. by eapply Hkeep.
  - intros _. by apply (Hdef i w n HQ Hn Hi).
Qed.

Section Defined.

Variable p : Platform.
Variable invoke : fnptr -> list uint8_t -> World -> result World.
Hypothesis invoke_wf : keeps_well_formed invoke.
Hypothesis invoke_defined : never_undefined invoke.
Variable n : uint8_t.

Let sized (w0 : World) : Prop :=
  numStates (machine w0) = n /\
  length (states (machine w0)) = N.to_nat n /\
  (currentState (machine w0) < n)%N /\ (previousState (machine w0) < n)%N.

Lemma sized_well_formed w : sized w -> well_formed w.
Proof. intros (H1 & H2 & H3 & H4). split; [|split]; by rewrite H1. Qed.

Lemma sized_current w :
  sized w -> exists d, states (machine w) !! N.to_nat (currentState (machine w)) = Some d.
Proof.
  intros (H1 & H2 & H3 & H4). apply lookup_lt_is_Some. lia.
Qed.

Lemma call_defined f args w : sized w -> call invoke f args w <> Undefined.
Proof.
  intros HQ. unfold call. apply invoke_defined. by apply sized_well_formed.
Qed.

Lemma call_sized f args w w' : sized w -> call invoke f args w = Ok w' -> sized w'.
Proof. apply (stable_call invoke sized (sized_stable n) (sized_kept invoke n invoke_wf)). Qed.

Lemma onTimeout_defined s i w : sized w -> onTimeout invoke s i w <> Undefined.
Proof.
  intros HQ. unfold onTimeout.
  destruct (N.eqb_spec (currentState (machine w)) s) as [<-|]; [|done].
  destruct (sized_current w HQ) as [d Hd]. unfold state_at. rewrite Hd; simpl.
  destruct (decide _) as [Hlt|]; [|done].
  destruct (lookup_lt_is_Some_2 _ _ Hlt) as [ti Hti]. rewrite Hti; simpl.
  unfold put_timeout, state_at.
  assert (Hd' : states (machine (if debugEnabled (machine w)
                    then print (TimeoutTriggered (currentState (machine w)) i) w
                    else w)) !! N.to_nat (currentState (machine w)) = Some d)
    by by destruct (debugEnabled (machine w)).
  rewrite Hd'; simpl. apply call_defined.
  destruct HQ as (H1 & H2 & H3 & H4).
  by destruct (debugEnabled (machine w)); repeat split; simpl; rewrite ?length_insert.
Qed.

Lemma TimerImplementation_update_defined s i w d ti :
  sized w -> states (machine w) !! N.to_nat s = Some d -> timeouts d !! i = Some ti ->
  TimerImplementation_update invoke s i w <> Undefined.
Proof.
  intros HQ Hd Hti. unfold TimerImplementation_update, state_at.
  rewrite Hd; simpl. rewrite Hti; simpl.
  destruct (timer ti) as [|a b c f]; [done|].
  destruct (c && _); [|done].
  unfold put_timeout, state_at. rewrite Hd; simpl.
  destruct (f =? nullptr)%N; [done|].
  destruct (call invoke f [] _) eqn:Hc; simpl; try done.
  exfalso. revert Hc. apply call_defined.
  destruct HQ as (H1 & H2 & H3 & H4). repeat split; simpl; by rewrite ?length_insert.
Qed.

Lemma poll_timers_defined fuel w : sized w -> poll_timers invoke fuel w <> Undefined.
Proof.
  unfold poll_timers. apply (for_loop_defined _ _ sized).
  - intros w0 HQ. destruct (sized_current w0 HQ) as [d Hd].
    unfold state_at. rewrite Hd; simpl. eauto.
  - intros j w0 m HQ Hm Hj. destruct (sized_current w0 HQ) as [d Hd].
    unfold state_at in *. rewrite Hd in *; simpl in *. injection Hm as <-.
    destruct (lookup_lt_is_Some_2 _ _ Hj) as [ti Hti]. rewrite Hti; simpl.
    destruct (active ti); [|done].
    destruct (TimerImplementation_update invoke _ j w0) as [r| |] eqn:Hr; simpl; [|done|].
    + destruct (fst r); [|done]. apply onTimeout_defined.
      eapply (stable_timer_update invoke sized (sized_stable n)
                (sized_kept invoke n invoke_wf)); [exact HQ|exact Hr].
    + exfalso. revert Hr. by eapply TimerImplementation_update_defined.
  - intros j w0 w1 HQ H.
    apply bind_Ok in H as (d & _ & H). apply bind_Ok in H as (ti & _ & H).
    destruct (active ti); [|by injection H as <-].
    apply bind_Ok in H as (r & Hr & H).
    apply (stable_timer_update invoke sized (sized_stable n)
             (sized_kept invoke n invoke_wf)) in Hr; [|done].
    destruct (fst r); [|by injection H as <-].
    by eapply (stable_onTimeout invoke sized (sized_stable n)
                 (sized_kept invoke n invoke_wf)).
Qed.

Ltac loop_defined :=
  apply (for_loop_defined _ _ sized);
  [ let w0 := fresh "w0" in let HQ := fresh "HQ" in let d := fresh "d" in
    let Hd := fresh "Hd" in
    intros w0 HQ; destruct (sized_current w0 HQ) as [d Hd];
    unfold state_at; rewrite ?Hd; simpl; eauto
  | let j := fresh "j" in let w0 := fresh "w0" in let m := fresh "m" in
    let HQ := fresh "HQ" in let Hm := fresh "Hm" in let Hj := fresh "Hj" in
    let d := fresh "d" in let Hd := fresh "Hd" in
    let f := fresh "f" in let Hf := fresh "Hf" in
    intros j w0 m HQ Hm Hj; destruct (sized_current w0 HQ) as [d Hd];
    unfold state_at in *; rewrite ?Hd in *; simpl in *; injection Hm as <-;
    destruct (lookup_lt_is_Some_2 _ _ Hj) as [f Hf]; rewrite Hf; simpl;
    by apply call_defined
  | let j := fresh "j" in let w0 := fresh "w0" in let w1 := fresh "w1" in
    let HQ := fresh "HQ" in let H := fresh "H" in
    intros j w0 w1 HQ H;
    repeat (apply bind_Ok in H as (? & _ & H));
    by eapply call_sized ].

Lemma run_before_defined fuel s w : sized w -> run_before invoke fuel s w <> Undefined.
Proof. unfold run_before. loop_defined. Qed.
Lemma run_after_defined fuel w : sized w -> run_after invoke fuel w <> Undefined.
Proof. unfold run_after. loop_defined. Qed.
Lemma run_exits_defined fuel s w : sized w -> run_exits invoke fuel s w <> Undefined.
Proof. unfold run_exits. loop_defined. Qed.
Lemma run_enters_defined fuel w : sized w -> run_enters invoke fuel w <> Undefined.
Proof. unfold run_enters. loop_defined. Qed.
Lemma run_onStates_defined fuel w : sized w -> run_onStates invoke fuel w <> Undefined.
Proof. unfold run_onStates. loop_defined. Qed.

Lemma stop_timers_defined w : sized w -> stop_timers w <> Undefined.
Proof.
  intros HQ. unfold stop_timers, state_at.
  destruct (sized_current w HQ) as [d ->]. done.
Qed.

Lemma start_timers_defined w : sized w -> start_timers p w <> Undefined.
Proof.
  intros HQ. unfold start_timers, state_at.
  destruct (sized_current w HQ) as [d ->]. done.
Qed.

Lemma setState_defined fuel s w : sized w -> setState p invoke fuel s w <> Undefined.
Proof.
  intros HQ. unfold setState.
  destruct (isValidState s w) eqn:Hv; simpl; [|done].
  destruct (s =? _)%N; [done|].
  pose proof (sized_stable n) as Hs. pose proof (sized_kept invoke n invoke_wf) as Hk.
  destruct (run_before invoke fuel s w) as [w1| |] eqn:H1; simpl;
    [|done|by apply run_before_defined in H1].
  apply (stable_run_before invoke sized Hs Hk) in H1; [|done].
  destruct (stop_timers w1) as [w2| |] eqn:H2; simpl;
    [|done|by apply stop_timers_defined in H2].
  apply (stable_stop_timers sized Hs) in H2; [|done].
  destruct (run_exits invoke fuel s w2) as [w3| |] eqn:H3; simpl;
    [|done|by apply run_exits_defined in H3].
  apply (stable_run_exits invoke sized Hs Hk) in H3; [|done].
  assert (H4 : sized (with_machine (enter_state s (millis w3)) w3)).
  { destruct H3 as (E1 & E2 & E3 & E4). destruct HQ as (F1 & _).
    repeat split; simpl; try done. apply isValidState_lt in Hv. by rewrite F1 in Hv. }
  destruct (run_enters invoke fuel _) as [w5| |] eqn:H5; simpl;
    [|done|by apply run_enters_defined in H5].
  apply (stable_run_enters invoke sized Hs Hk) in H5; [|done].
  destruct (start_timers p w5) as [w6| |] eqn:H6; simpl;
    [|done|by apply start_timers_defined in H6].
  apply (stable_start_timers sized Hs) in H6; [|done].
  by apply run_after_defined.
Qed.

Lemma update_defined fuel w : sized w -> update p invoke fuel w <> Undefined.
Proof.
  intros HQ. unfold update.
  pose proof (sized_stable n) as Hs. pose proof (sized_kept invoke n invoke_wf) as Hk.
  assert (H1 : forall w1, (if is_esp p then Ok w else poll_timers invoke fuel w) = Ok w1 ->
                 sized w1).
  { intros w1. destruct (is_esp p); [by intros [= <-]|].
    by apply (stable_poll_timers invoke sized Hs Hk). }
  destruct (if is_esp p then Ok w else poll_timers invoke fuel w) as [w1| |] eqn:E1; simpl.
  - specialize (H1 w1 eq_refl).
    destruct (run_onStates invoke fuel w1) as [w2| |] eqn:E2; simpl;
      [done|done|by apply run_onStates_defined in E2].
  - done.
  - destruct (is_esp p); [done|]. by apply poll_timers_defined in E1.
Qed.

End Defined.

Lemma state_at_valid s w :
  length (states (machine w)) = N.to_nat (numStates (machine w)) ->
  isValidState s w = true -> exists d, states (machine w) !! N.to_nat s = Some d.
Proof.
  intros Hl Hv. apply isValidState_lt in Hv. apply lookup_lt_is_Some. lia.
Qed.

Ltac add_total :=
  let Hl := fresh "Hl" in let Hv := fresh "Hv" in let d := fresh "d" in
  let Hd := fresh "Hd" in
  intros Hl; unfold state_at;
  destruct (isValidState _ _) eqn:Hv; simpl; [|eauto];
  destruct (state_at_valid _ _ Hl Hv) as [d Hd]; rewrite Hd; simpl;
  repeat match goal with
         | |- context [if ?b then _ else _] => destruct b
         | |- context [match ?o with Some _ => _ | None => _ end] =>
             destruct o as [[??]|]
         end; eauto.

Lemma addOnEnter_total p s f w :
  length (states (machine w)) = N.to_nat (numStates (machine w)) ->
  exists r, addOnEnter p s f w = Ok r.
Proof. unfold addOnEnter. add_total. Qed.
Lemma addOnState_total p s f w :
  length (states (machine w)) = N.to_nat (numStates (machine w)) ->
  exists r, addOnState p s f w = Ok r.
Proof. unfold addOnState. add_total. Qed.
Lemma addOnExit_total p s f w :
  length (states (machine w)) = N.to_nat (numStates (machine w)) ->
  exists r, addOnExit p s f w = Ok r.
Proof. unfold addOnExit. add_total. Qed.
Lemma addTimeout_total p s t f w :
  length (states (machine w)) = N.to_nat (numStates (machine w)) ->
  exists r, addTimeout p s t f w = Ok r.
Proof. unfold addTimeout. add_total. Qed.
Lemma removeOnEnter_total s f w :
  length (states (machine w)) = N.to_nat (numStates (machine w)) ->
  exists r, removeOnEnter s f w = Ok r.
Proof. unfold removeOnEnter. add_total. Qed.
Lemma removeOnState_total s f w :
  length (states (machine w)) = N.to_nat (numStates (machine w)) ->
  exists r, removeOnState s f w = Ok r.
Proof. unfold removeOnState. add_total. Qed.
Lemma removeOnExit_total s f w :
  length (states (machine w)) = N.to_nat (numStates (machine w)) ->
  exists r, removeOnExit s f w = Ok r.
Proof. unfold removeOnExit. add_total. Qed.
Lemma removeTimeout_total s t w :
  length (states (machine w)) = N.to_nat (numStates (machine w)) ->
  exists r, removeTimeout s t w = Ok r.
Proof. unfold removeTimeout. add_total. Qed.

Lemma configured_sized p w w' :
  configured p w w' ->
  length (states (machine w)) = N.to_nat (numStates (machine w)) ->
  length (states (machine w')) = N.to_nat (numStates (machine w')).
Proof.
  intros Hc Hl. apply configured_frame in Hc as [Hcore Hlen].
  unfold core in Hcore. injection Hcore as E _ _ _. by rewrite Hlen, E.
Qed.

Lemma configureState_total p s t e d x o w :
  length (states (machine w)) = N.to_nat (numStates (machine w)) ->
  exists w', configureState p s t e d x o w = Ok w'.
Proof.
  intros Hl. unfold configureState. destruct (negb _); [eauto|].
  assert (H1 : exists w1, (if (e =? nullptr)%N then Ok w
                           else do r <- addOnEnter p s e w; Ok (snd r)) = Ok w1 /\
                 configured p w w1).
  { destruct (e =? nullptr)%N; [eauto using configured_refl|].
    destruct (addOnEnter_total p s e w Hl) as [r Hr]. rewrite Hr; simpl.
    eauto using addOnEnter_configured. }
  destruct H1 as (w1 & -> & C1); simpl. pose proof (configured_sized _ _ _ C1 Hl) as Hl1.
  assert (H2 : exists w2, (if (d =? nullptr)%N then Ok w1
                           else do r <- addOnState p s d w1; Ok (snd r)) = Ok w2 /\
                 configured p w1 w2).
  { destruct (d =? nullptr)%N; [eauto using configured_refl|].
    destruct (addOnState_total p s d w1 Hl1) as [r Hr]. rewrite Hr; simpl.
    eauto using addOnState_configured. }
  destruct H2 as (w2 & -> & C2); simpl. pose proof (configured_sized _ _ _ C2 Hl1) as Hl2.
  assert (H3 : exists w3, (if (x =? nullptr)%N then Ok w2
                           else do r <- addOnExit p s x w2; Ok (snd r)) = Ok w3 /\
                 configured p w2 w3).
  { destruct (x =? nullptr)%N; [eauto using configured_refl|].
    destruct (addOnExit_total p s x w2 Hl2) as [r Hr]. rewrite Hr; simpl.
    eauto using addOnExit_configured. }
  destruct H3 as (w3 & -> & C3); simpl. pose proof (configured_sized _ _ _ C3 Hl2) as Hl3.
  destruct (_ && _); [|eauto].
  destruct (addTimeout_total p s t o w3 Hl3) as [r ->]. simpl. eauto.
Qed.

Lemma quiet_total p invoke fuel op w :
  length (states (machine w)) = N.to_nat (numStates (machine w)) ->
  quiet op = true -> exists w', perform p invoke fuel op w = Ok w'.
Proof.
  intros Hl. destruct op; simpl; try discriminate; intros _; unfold dropped; eauto.
  - by apply configureState_total.
  - destruct (addTimeout_total p state timeout onTimeout0 w Hl) as [r ->]. simpl. eauto.
  - destruct (addOnEnter_total p state onEnter w Hl) as [r ->]. simpl. eauto.
  - destruct (addOnState_total p state onState w Hl) as [r ->]. simpl. eauto.
  - destruct (addOnExit_total p state onExit w Hl) as [r ->]. simpl. eauto.
  - destruct (removeTimeout_total state timeout w Hl) as [r ->]. simpl. eauto.
  - destruct (removeOnEnter_total state onEnter w Hl) as [r ->]. simpl. eauto.
  - destruct (removeOnState_total state onState w Hl) as [r ->]. simpl. eauto.
  - destruct (removeOnExit_total state onExit w Hl) as [r ->]. simpl. eauto.
Qed.

(** X4: on a well-formed machine no operation reads or writes outside the array
    of states or outside a callback list, when the callbacks it runs do not
    and keep the machine well-formed; and the operations that run no
    callback always return. *)
Theorem never_outside_the_array p invoke fuel op w :
  keeps_well_formed invoke -> never_undefined invoke ->
  well_formed w ->
  perform p invoke fuel op w <> Undefined /\
  (quiet op = true -> exists w', perform p invoke fuel op w = Ok w').
Proof.
  intros Hk Hdef Hwf.
  assert (Hq : quiet op = true -> exists w', perform p invoke fuel op w = Ok w').
  { apply quiet_total. by destruct Hwf. }
  split; [|exact Hq].
  destruct (quiet op) eqn:Eq; [destruct Hq as [w' ->]; done|].
  assert (HQ : numStates (machine w) = numStates (machine w) /\
               length (states (machine w)) = N.to_nat (numStates (machine w)) /\
               (currentState (machine w) < numStates (machine w))%N /\
               (previousState (machine w) < numStates (machine w))%N)
    by (destruct Hwf as [? [? ?]]; by repeat split).
  destruct op; simpl in Eq |- *; try discriminate.
  - by apply (setState_defined p invoke Hk Hdef (numStates (machine w))).
  - by apply (update_defined p invoke Hk Hdef (numStates (machine w))).
  - by apply (onTimeout_defined invoke Hdef (numStates (machine w))).
Qed.

Lemma passive_never_undefined : never_undefined passive.
Proof. by intros f args w _. Qed.

Lemma never_outside_the_array_witness :
  perform RP2040 passive 4 Update (demo RP2040) <> Undefined.
Proof.
  refine (proj1 (never_outside_the_array RP2040 passive 4 Update (demo RP2040)
                   passive_keeps_well_formed passive_never_undefined _)).
  split; [reflexivity|]. by split.
Defined.

(** ** Callbacks that do not call back: what the loops keep *)

Section PassiveKeeps.

Variable invoke : fnptr -> list uint8_t -> World -> result World.
Hypothesis Hpassive : returns_unchanged invoke.
Variable Q : World -> Prop.
Hypothesis Q_emit : forall e w, Q w -> Q (emit e w).

Lemma passive_call f args w w' : Q w -> call invoke f args w = Ok w' -> Q w'.
Proof. unfold call. rewrite Hpassive. intros HQ [= <-]. by apply Q_emit. Qed.

Ltac passive_loop :=
  apply for_loop_inv;
  let j := fresh "j" in let w := fresh "w" in let w' := fresh "w'" in
  let HQ := fresh "HQ" in let H := fresh "H" in
  intros j w w' HQ H;
  repeat (apply bind_Ok in H as (? & _ & H));
  by eapply passive_call.

Lemma passive_run_before fuel s w w' : Q w -> run_before invoke fuel s w = Ok w' -> Q w'.
Proof. unfold run_before. passive_loop. Qed.
Lemma passive_run_exits fuel s w w' : Q w -> run_exits invoke fuel s w = Ok w' -> Q w'.
Proof. unfold run_exits. passive_loop. Qed.
Lemma passive_run_enters fuel w w' : Q w -> run_enters invoke fuel w = Ok w' -> Q w'.
Proof. unfold run_enters. passive_loop. Qed.
Lemma passive_run_after fuel w w' : Q w -> run_after invoke fuel w = Ok w' -> Q w'.
Proof. unfold run_after. passive_loop. Qed.
Lemma passive_run_onStates fuel w w' : Q w -> run_onStates invoke fuel w = Ok w' -> Q w'.
Proof. unfold run_onStates. passive_loop. Qed.

End PassiveKeeps.

(** ** Active timeouts belong to the current state *)

Lemma active_put_state s d d' w :
  states (machine w) !! N.to_nat s = Some d ->
  (forall ti', ti' ∈ timeouts d' -> active ti' = true ->
     exists ti, ti ∈ timeouts d /\ active ti = true) ->
  active_only_in_current w -> active_only_in_current (put_state s d' w).
Proof.
  intros Hd Hold HP i d0 ti Hi Hti Hact. simpl in *.
  destruct (decide (i = N.to_nat s)) as [->|Hne].
  - rewrite list_lookup_insert_eq in Hi by (by eapply lookup_lt_Some).
    injection Hi as <-. destruct (Hold ti Hti Hact) as (ti0 & Hti0 & Hact0).
    by apply (HP _ d ti0).
  - rewrite list_lookup_insert_ne in Hi by done. by apply (HP _ d0 ti).
Qed.

Lemma active_only_machine : machine_only active_only_in_current.
Proof. intros w w' Hm HP. unfold active_only_in_current. by rewrite <- Hm. Qed.

Lemma all_inactive_machine : machine_only all_inactive.
Proof. intros w w' Hm HP. unfold all_inactive. by rewrite <- Hm. Qed.

Lemma machine_only_emit Q : machine_only Q -> forall e w, Q w -> Q (emit e w).
Proof. intros HQ e w. by apply HQ. Qed.

Lemma active_only_emit e w : active_only_in_current w -> active_only_in_current (emit e w).
Proof. apply machine_only_emit, active_only_machine. Qed.

Lemma all_inactive_emit e w : all_inactive w -> all_inactive (emit e w).
Proof. apply machine_only_emit, all_inactive_machine. Qed.

Lemma active_put_timeout s i ti ti' d w w' :
  states (machine w) !! N.to_nat s = Some d -> timeouts d !! i = Some ti ->
  (active ti' = true -> active ti = true) ->
  put_timeout s i ti' w = Ok w' ->
  active_only_in_current w -> active_only_in_current w'.
Proof.
  intros Hd Hti Himp H HP. unfold put_timeout, state_at in H. rewrite Hd in H.
  injection H as <-. apply (active_put_state _ d); [done| |done].
  intros x Hx Hact. simpl in Hx.
  apply list_elem_of_lookup in Hx as (j & Hj).
  apply list_lookup_insert_Some in Hj as [(-> & <- & _)|(Hne & Hj)].
  - exists ti. split; [by eapply list_elem_of_lookup_2|by apply Himp].
  - exists x. split; [by eapply list_elem_of_lookup_2|done].
Qed.

Lemma configured_active p w w' :
  configured p w w' -> active_only_in_current w -> active_only_in_current w'.
Proof.
  induction 1 as [w|w w1 s d d' f es _ IH Hv Hd Hf [_ He]
                  |w w1 l f _ IH Hf Hl|w w1 l f _ IH Hf Hl
                  |w w1 b _ IH|w w1 ms _ IH]; intros HP; try (by apply IH); [done|].
  apply (active_only_machine (put_state s d' w1)); [done|].
  apply (active_put_state _ d); [done| |by apply IH].
  intros ti Hti Hact. apply He in Hti as [Hti|[Hoff _]]; [eauto|congruence].
Qed.

Lemma start_timers_machine p w w' :
  start_timers p w = Ok w' ->
  exists d, states (machine w) !! N.to_nat (currentState (machine w)) = Some d /\
    machine w' =
      machine (put_state (currentState (machine w))
                 (set_timeouts
                    (imap (arm p (currentState (machine w)) (millis w)) (timeouts d)) d) w).
Proof.
  intros H. unfold start_timers in H.
  apply bind_Ok in H as (d & Hd & [= <-]). apply of_option_Ok in Hd.
  exists d. split; [done|]. by destruct (debugEnabled (machine w)).
Qed.

Section PassiveActive.

Variable p : Platform.
Variable invoke : fnptr -> list uint8_t -> World -> result World.
Hypothesis Hpassive : returns_unchanged invoke.

Lemma active_onTimeout s i w w' :
  active_only_in_current w -> onTimeout invoke s i w = Ok w' -> active_only_in_current w'.
Proof.
  intros HP. unfold onTimeout.
  destruct (_ =? _)%N; [|by intros [= <-]].
  intros H. apply bind_Ok in H as (d & Hd & H). apply of_option_Ok in Hd.
  destruct (decide _); [|by injection H as <-].
  apply bind_Ok in H as (ti & Hti & H). apply of_option_Ok in Hti.
  apply bind_Ok in H as (w2 & Hput & H).
  eapply (passive_call invoke Hpassive _ active_only_emit); [|exact H].
  eapply (active_put_timeout _ _ ti); [| | |exact Hput|].
  - by destruct (debugEnabled (machine w)).
  - done.
  - done.
  - by destruct (debugEnabled (machine w)).
Qed.

Lemma active_timer_update s i w r :
  active_only_in_current w -> TimerImplementation_update invoke s i w = Ok r ->
  active_only_in_current (snd r).
Proof.
  intros HP. unfold TimerImplementation_update. intros H.
  apply bind_Ok in H as (d & Hd & H). apply of_option_Ok in Hd.
  apply bind_Ok in H as (ti & Hti & H). apply of_option_Ok in Hti.
  destruct (timer ti) as [|a b c f]; [by injection H as <-|].
  destruct (c && _); [|by injection H as <-].
  apply bind_Ok in H as (w1 & Hput & H).
  apply (active_put_timeout _ _ ti _ d) in Hput; [|done..].
  destruct (f =? nullptr)%N; [by injection H as <-|].
  apply bind_Ok in H as (w2 & Hc2 & [= <-]). simpl.
  by eapply (passive_call invoke Hpassive _ active_only_emit).
Qed.

Lemma active_poll_timers fuel w w' :
  active_only_in_current w -> poll_timers invoke fuel w = Ok w' ->
  active_only_in_current w'.
Proof.
  unfold poll_timers. apply for_loop_inv. clear w w'.
  intros j w w' HQ H.
  apply bind_Ok in H as (d & _ & H). apply bind_Ok in H as (ti & _ & H).
  destruct (active ti); [|by injection H as <-].
  apply bind_Ok in H as (r & Hr & H).
  apply active_timer_update in Hr; [|done].
  destruct (fst r); [by eapply active_onTimeout|by injection H as <-].
Qed.

Lemma active_stop_timers w w' :
  active_only_in_current w -> stop_timers w = Ok w' -> all_inactive w'.
Proof.
  intros HP H. unfold stop_timers in H.
  apply bind_Ok in H as (d & Hd & [= <-]). apply of_option_Ok in Hd.
  intros i d0 ti Hi Hti. simpl in Hi.
  destruct (decide (i = N.to_nat (currentState (machine w)))) as [->|Hne].
  - rewrite list_lookup_insert_eq in Hi by (by eapply lookup_lt_Some).
    injection Hi as <-. simpl in Hti.
    by apply list_elem_of_fmap in Hti as (ti0 & -> & _).
  - rewrite list_lookup_insert_ne in Hi by done.
    destruct (active ti) eqn:Hact; [|done]. by destruct (Hne (HP i d0 ti Hi Hti Hact)).
Qed.

Lemma active_start_timers w w' :
  all_inactive w -> start_timers p w = Ok w' -> active_only_in_current w'.
Proof.
  intros HA H. apply start_timers_machine in H as (d & Hd & Hm).
  intros i d0 ti Hi Hti Hact. rewrite Hm in Hi |- *. simpl in Hi |- *.
  destruct (decide (i = N.to_nat (currentState (machine w)))) as [->|Hne]; [done|].
  rewrite list_lookup_insert_ne in Hi by done.
  by rewrite (HA i d0 ti Hi Hti) in Hact.
Qed.

End PassiveActive.

(** X5: with callbacks that do not call back into the machine, only timeouts of
    the current state are ever active: every operation that returns keeps
    this, and it holds of a constructed machine. *)
Theorem active_timeouts_are_current p invoke :
  returns_unchanged invoke ->
  (forall n now w0, construct n now = Ok w0 -> active_only_in_current w0) /\
  (forall fuel op w w',
     active_only_in_current w -> perform p invoke fuel op w = Ok w' ->
     active_only_in_current w').
Proof.
  intros Hpassive. split.
  - intros n now w0 [= <-] i d ti Hi Hti. simpl in Hi.
    apply lookup_replicate in Hi as [-> _]. simpl in Hti. by apply elem_of_nil in Hti.
  - intros fuel op w w' HP Hop.
    destruct (quiet op) eqn:Hq.
    { apply quiet_configured in Hop; [|done]. by eapply configured_active. }
    destruct op; simpl in Hq, Hop; try discriminate.
    + unfold setState in Hop.
      destruct (negb _); [by injection Hop as <-|].
      destruct (_ =? _)%N; [by injection Hop as <-|].
      apply bind_Ok in Hop as (w1 & H1 & H). apply bind_Ok in H as (w2 & H2 & H).
      apply bind_Ok in H as (w3 & H3 & H). apply bind_Ok in H as (w5 & H5 & H).
      apply bind_Ok in H as (w6 & H6 & H).
      eapply (passive_run_after invoke Hpassive _ active_only_emit); [|exact H].
      eapply active_start_timers; [|exact H6].
      eapply (passive_run_enters invoke Hpassive _ all_inactive_emit); [|exact H5].
      assert (HA3 : all_inactive w3).
      { eapply (passive_run_exits invoke Hpassive _ all_inactive_emit); [|exact H3].
        eapply active_stop_timers; [|exact H2].
        by eapply (passive_run_before invoke Hpassive _ active_only_emit). }
      exact HA3.
    + unfold update in Hop.
      apply bind_Ok in Hop as (w1 & H1 & H). apply bind_Ok in H as (w2 & H2 & [= <-]).
      assert (HP1 : active_only_in_current w1).
      { destruct (is_esp p); [by injection H1 as <-|].
        by eapply (active_poll_timers invoke Hpassive). }
      by eapply (passive_run_onStates invoke Hpassive _ active_only_emit) in H2.
    + by eapply (active_onTimeout invoke Hpassive).
Qed.

Lemma active_timeouts_are_current_witness :
  active_only_in_current fresh3 /\
  match perform ESP passive 4 (SetState 1%N) (demo ESP) with
  | Ok w' => active_only_in_current w'
  | _ => False
  end.
Proof.
  destruct (active_timeouts_are_current ESP passive (fun f args w => eq_refl))
    as [Hc Hop].
  split; [exact (Hc 3%N 1000%Z fresh3 eq_refl)|].
  destruct (perform ESP passive 4 (SetState 1%N) (demo ESP)) as [w'| |] eqn:H;
    [|vm_compute in H; discriminate..].
  apply (Hop 4 (SetState 1%N) (demo ESP) w'); [|exact H].
  intros i d ti Hi Hti Hact.
  destruct i as [|[|[|i]]]; simpl in Hi; [| | |discriminate];
    injection Hi as <-; simpl in Hti;
    repeat (apply elem_of_cons in Hti as [->|Hti]; [discriminate|]);
    by apply elem_of_nil in Hti.
Defined.

(** ** The millis()-based timer *)

Lemma wrap32_elapsed (startTime elapsed : Z) :
  (0 <= elapsed < 2 ^ 32)%Z ->
  wrap32 (wrap32 (startTime + elapsed) - startTime) = elapsed.
Proof.
  intros He. unfold wrap32.
  rewrite Zminus_mod_idemp_l.
  replace (startTime + elapsed - startTime)%Z with elapsed by lia.
  by apply Z.mod_small.
Qed.

(** X6: [TimerImplementation::update] on a running timer started at
    [startTime]: when [elapsed] ms have passed, the clock having rolled over
    or not, it answers false and changes nothing before [period] ms; from
    [period] ms on it switches the timer off and, if a function was
    installed, calls it and answers true, otherwise answers false. A timer
    that is not running answers false and changes nothing. *)
Theorem timer_expiry_survives_rollover invoke (s : uint8_t) (i : nat) (w : World)
    (d : StateDefinition) (ti : TimeoutInfo) (startTime period elapsed : Z) (func : fnptr) :
  states (machine w) !! N.to_nat s = Some d ->
  timeouts d !! i = Some ti ->
  (0 <= elapsed < 2 ^ 32)%Z ->
  millis w = wrap32 (startTime + elapsed) ->
  (timer ti = PollTimer startTime period true func -> (elapsed < period)%Z ->
     TimerImplementation_update invoke s i w = Ok (false, w)) /\
  (timer ti = PollTimer startTime period true func -> (period <= elapsed)%Z ->
     let w1 := put_state s
                 (set_timeouts
                    (<[i := set_timer (PollTimer startTime period false func) ti]>
                       (timeouts d)) d) w in
     TimerImplementation_update invoke s i w =
       if (func =? nullptr)%N then Ok (false, w1)
       else do w2 <- call invoke func [] w1; Ok (true, w2)) /\
  (timer ti = PollTimer startTime period false func ->
     TimerImplementation_update invoke s i w = Ok (false, w)).
Proof.
  intros Hd Hti He Hnow.
  unfold TimerImplementation_update, state_at. rewrite Hd; simpl. rewrite Hti; simpl.
  split; [|split].
  - intros -> Hlt. rewrite Hnow, wrap32_elapsed by done.
    rewrite bool_decide_eq_false_2 by lia. reflexivity.
  - intros -> Hle. rewrite Hnow, wrap32_elapsed by done.
    rewrite bool_decide_eq_true_2 by lia. simpl.
    unfold put_timeout, state_at. rewrite Hd; simpl. reflexivity.
  - by intros ->.
Qed.

Lemma timer_expiry_survives_rollover_witness :
  exists w d ti,
    states (machine w) !! N.to_nat 1%N = Some d /\ timeouts d !! 0 = Some ti /\
    timer ti = PollTimer 4294967000 100 true nullptr /\
    millis w = 54%Z /\
    TimerImplementation_update passive 1%N 0 w =
      Ok (false,
          put_state 1%N
            (set_timeouts
               (<[0 := set_timer (PollTimer 4294967000 100 false nullptr) ti]>
                  (timeouts d)) d) w).
Proof.
  set (ti := mkTimeoutInfo 100 7%N (PollTimer 4294967000 100 true nullptr) true 1%N 0%N).
  set (d := mkStateDefinition [ti] [] [] []).
  set (w := mkWorld (machine (put_state 1%N d fresh3)) 54 [] []).
  exists w, d, ti.
  split; [reflexivity|]. split; [reflexivity|]. split; [reflexivity|].
  split; [reflexivity|].
  exact (proj1 (proj2 (timer_expiry_survives_rollover passive 1%N 0 w d ti
                         4294967000 100 350 nullptr eq_refl eq_refl
                         ltac:(lia) eq_refl)) eq_refl ltac:(lia)).
Defined.

(** ** The time in the current state *)

Lemma start_timers_clock p w w' :
  start_timers p w = Ok w' ->
  stateEnteredTime (machine w') = stateEnteredTime (machine w) /\ millis w' = millis w.
Proof.
  intros H. unfold start_timers in H.
  apply bind_Ok in H as (d & Hd & [= <-]). by destruct (debugEnabled (machine w)).
Qed.

(** X7: with callbacks that do not call back and do not take time, right after
    a transition [timeInCurrentState()] is 0, and [elapsed] ms later, below
    2^32, it is [elapsed], whether [millis()] rolled over meanwhile or not. *)
Theorem timeInCurrentState_after_transition p invoke fuel (s : uint8_t) (w w' : World) :
  returns_unchanged invoke ->
  isValidState s w = true -> s <> currentState (machine w) ->
  setState p invoke fuel s w = Ok w' ->
  timeInCurrentState w' = 0%Z /\
  forall elapsed, (0 <= elapsed < 2 ^ 32)%Z ->
    timeInCurrentState (advance elapsed w') = elapsed.
Proof.
  intros Hpassive Hv Hne H.
  set (Q := fun w0 : World => stateEnteredTime (machine w0) = millis w0).
  assert (HQe : forall e w0, Q w0 -> Q (emit e w0)) by done.
  assert (HQ : Q w').
  { unfold setState in H. rewrite Hv, (proj2 (N.eqb_neq _ _) Hne) in H; simpl in H.
    apply bind_Ok in H as (w1 & H1 & H). apply bind_Ok in H as (w2 & H2 & H).
    apply bind_Ok in H as (w3 & H3 & H). apply bind_Ok in H as (w5 & H5 & H).
    apply bind_Ok in H as (w6 & H6 & H).
    eapply (passive_run_after invoke Hpassive Q HQe); [|exact H].
    apply start_timers_clock in H6 as [E1 E2]. unfold Q. rewrite E1, E2.
    by eapply (passive_run_enters invoke Hpassive Q HQe); [|exact H5]. }
  unfold timeInCurrentState. unfold Q in HQ. split.
  - rewrite HQ, Z.sub_diag. reflexivity.
  - intros elapsed He. simpl. rewrite HQ. by apply wrap32_elapsed.
Qed.

Lemma timeInCurrentState_after_transition_witness :
  match setState ESP passive 4 1%N (demo ESP) with
  | Ok w' => timeInCurrentState w' = 0%Z /\
             timeInCurrentState (advance 4294967295 w') = 4294967295%Z
  | _ => False
  end.
Proof.
  destruct (setState ESP passive 4 1%N (demo ESP)) as [w'| |] eqn:H;
    [|vm_compute in H; discriminate..].
  destruct (timeInCurrentState_after_transition ESP passive 4 1%N (demo ESP) w'
              (fun f args w => eq_refl) eq_refl ltac:(discriminate) H) as [H0 He].
  split; [exact H0|]. apply He. lia.
Defined.

(** ** The destructor *)

Lemma stop_states_spec k :
  forall (s : uint8_t) (w : World) (pre rest : list StateDefinition),
    states (machine w) = pre ++ rest ->
    length pre = N.to_nat s -> length rest = k ->
    stop_states k s w =
      Ok (emits (mjoin (imap (fun j d => detaches (s + N.of_nat j)%N (timeouts d)) rest))
            (with_machine
               (set_states
                  (pre ++ ((fun d => set_timeouts (cancel <$> timeouts d) d) <$> rest)))
               w)).
Proof.
  induction k as [|k IH]; intros s w pre rest Hst Hpre Hrest.
  - destruct rest; [|done]. rewrite app_nil_r in Hst. simpl.
    rewrite app_nil_r, <- Hst, emits_nil.
    f_equal. by destruct w as [m t tr se]; destruct m.
  - destruct rest as [|d rest]; [done|]. injection Hrest as Hrest.
    simpl. unfold state_at. rewrite Hst, <- Hpre, list_lookup_middle by done. simpl.
    rewrite (IH (s + 1)%N _ (pre ++ [set_timeouts (cancel <$> timeouts d) d]) rest).
    + f_equal. unfold emits, with_machine, set_states; simpl.
      rewrite <- (app_assoc pre), <- (app_assoc (trace w)), N.add_0_r. simpl.
      do 4 f_equal. apply imap_ext. intros j x _. simpl. f_equal. lia.
    + simpl. rewrite Hst, <- Hpre.
      replace (length pre) with (length pre + 0) at 1 by lia.
      rewrite insert_app_r. simpl. by rewrite <- app_assoc.
    + rewrite length_app. simpl. lia.
    + done.
Qed.

(** X8: on a machine whose array has [numStates] records the destructor
    returns; it has detached the timer of every timeout of every state and
    marked every entry inactive, and changed nothing else: what is
    registered, the state ids and the flag are as before, and the trace grew
    by detaches only, so no callback ran. *)
Theorem destructor_stops_every_timer (w : World) :
  length (states (machine w)) = N.to_nat (numStates (machine w)) ->
  exists w',
    destructor w = Ok w' /\
    states (machine w') =
      (fun d => set_timeouts (cancel <$> timeouts d) d) <$> states (machine w) /\
    all_inactive w' /\
    registry w' = registry w /\ core w' = core w /\
    trace w' =
      trace w
      ++ mjoin (imap (fun j d => detaches (N.of_nat j) (timeouts d)) (states (machine w))) /\
    (forall f args, Call f args ∈ trace w' -> Call f args ∈ trace w).
Proof.
  intros Hl. unfold destructor.
  rewrite (stop_states_spec _ 0%N w [] (states (machine w))) by done.
  eexists; split; [reflexivity|]. simpl.
  split; [done|]. split; [|split; [|split; [done|split; [done|]]]].
  - intros i d ti Hi Hti. simpl in Hi. rewrite list_lookup_fmap in Hi.
    destruct (states (machine w) !! i) as [d0|]; [|done]. injection Hi as <-.
    simpl in Hti. by apply list_elem_of_fmap in Hti as (ti0 & -> & _).
  - unfold registry; simpl. f_equal. rewrite <- list_fmap_compose.
    apply list_fmap_ext. intros i d _. simpl. apply reg_of_cancel.
  - intros f args. rewrite elem_of_app. intros [Hin|Hin]; [done|].
    apply list_elem_of_join in Hin as (l & Hin & Hl').
    apply list_elem_of_lookup in Hl' as (j & Hj).
    rewrite list_lookup_imap in Hj.
    destruct (states (machine w) !! j) as [d|]; [|done]. injection Hj as <-.
    unfold detaches in Hin. apply list_elem_of_lookup in Hin as (k & Hk).
    rewrite list_lookup_imap in Hk. by destruct (timeouts d !! k).
Qed.

Lemma destructor_stops_every_timer_witness :
  exists w',
    destructor (demo RP2040) = Ok w' /\ all_inactive w' /\
    trace w' = [Detach 0%N 0; Detach 1%N 0; Detach 1%N 1].
Proof.
  destruct (destructor_stops_every_timer (demo RP2040) eq_refl)
    as (w' & H & _ & Hoff & _ & _ & Htr & _).
  exists w'. split; [exact H|]. split; [exact Hoff|exact Htr].
Defined.

(** ** The operations given a state touch that state only *)

Lemma rest_of_put_state s d' w : rest_of s (put_state s d' w) = rest_of s w.
Proof.
  unfold rest_of; simpl. by rewrite list_fmap_insert, list_insert_insert_eq.
Qed.

Lemma rest_of_emit s e w : rest_of s (emit e w) = rest_of s w.
Proof. reflexivity. Qed.

Ltac rest_of_op :=
  let H := fresh "H" in
  intros H;
  repeat first
    [ progress simplify_eq/=
    | match goal with
      | H : bind _ _ = Ok _ |- _ => apply bind_Ok in H as (? & ? & H)
      | H : context [if ?b then _ else _] |- _ => destruct b eqn:?
      | H : context [match ?o with Some _ => _ | None => _ end] |- _ =>
          destruct o as [[??]|] eqn:?
      end ];
  rewrite ?rest_of_emit, ?rest_of_put_state; reflexivity.

Lemma addOnEnter_rest p s f w r : addOnEnter p s f w = Ok r -> rest_of s (snd r) = rest_of s w.
Proof. unfold addOnEnter. rest_of_op. Qed.
Lemma addOnState_rest p s f w r : addOnState p s f w = Ok r -> rest_of s (snd r) = rest_of s w.
Proof. unfold addOnState. rest_of_op. Qed.
Lemma addOnExit_rest p s f w r : addOnExit p s f w = Ok r -> rest_of s (snd r) = rest_of s w.
Proof. unfold addOnExit. rest_of_op. Qed.
Lemma addTimeout_rest p s t f w r :
  addTimeout p s t f w = Ok r -> rest_of s (snd r) = rest_of s w.
Proof. unfold addTimeout. rest_of_op. Qed.
Lemma removeOnEnter_rest s f w r : removeOnEnter s f w = Ok r -> rest_of s (snd r) = rest_of s w.
Proof. unfold removeOnEnter. rest_of_op. Qed.
Lemma removeOnState_rest s f w r : removeOnState s f w = Ok r -> rest_of s (snd r) = rest_of s w.
Proof. unfold removeOnState. rest_of_op. Qed.
Lemma removeOnExit_rest s f w r : removeOnExit s f w = Ok r -> rest_of s (snd r) = rest_of s w.
Proof. unfold removeOnExit. rest_of_op. Qed.
Lemma removeTimeout_rest s t w r : removeTimeout s t w = Ok r -> rest_of s (snd r) = rest_of s w.
Proof. unfold removeTimeout. rest_of_op. Qed.

Lemma configureState_rest p s t e d x o w w' :
  configureState p s t e d x o w = Ok w' -> rest_of s w' = rest_of s w.
Proof.
  unfold configureState. destruct (negb _); [by intros [= <-]|].
  intros H.
  apply bind_Ok in H as (w1 & H1 & H). apply bind_Ok in H as (w2 & H2 & H).
  apply bind_Ok in H as (w3 & H3 & H).
  assert (E1 : rest_of s w1 = rest_of s w).
  { destruct (e =? nullptr)%N; [by injection H1 as <-|].
    apply bind_Ok in H1 as (r & Hr & [= <-]). by eapply addOnEnter_rest. }
  assert (E2 : rest_of s w2 = rest_of s w1).
  { destruct (d =? nullptr)%N; [by injection H2 as <-|].
    apply bind_Ok in H2 as (r & Hr & [= <-]). by eapply addOnState_rest. }
  assert (E3 : rest_of s w3 = rest_of s w2).
  { destruct (x =? nullptr)%N; [by injection H3 as <-|].
    apply bind_Ok in H3 as (r & Hr & [= <-]). by eapply addOnExit_rest. }
  assert (E4 : rest_of s w' = rest_of s w3).
  { destruct (_ && _); [|by injection H as <-].
    apply bind_Ok in H as (r & Hr & [= <-]). by eapply addTimeout_rest. }
  by rewrite E4, E3, E2, E1.
Qed.

(** X9: an add, a remove or a [configureState] on state [s] leaves the record of
    every other state as it was, and also the two handler lists, the state
    ids, the flag, the entry time, the debug switch, the clock and the debug
    output. *)
Theorem state_scoped_operations_touch_one_state p invoke fuel op (s : uint8_t) w w' :
  target op = Some s ->
  perform p invoke fuel op w = Ok w' ->
  (forall i, i <> N.to_nat s -> states (machine w') !! i = states (machine w) !! i) /\
  length (states (machine w')) = length (states (machine w)) /\
  beforeStateChangeHandlers (machine w') = beforeStateChangeHandlers (machine w) /\
  afterStateChangeHandlers (machine w') = afterStateChangeHandlers (machine w) /\
  core w' = core w /\
  stateEnteredTime (machine w') = stateEnteredTime (machine w) /\
  debugEnabled (machine w') = debugEnabled (machine w) /\
  millis w' = millis w /\ serial w' = serial w.
Proof.
  intros Ht Hop.
  assert (Hrest : rest_of s w' = rest_of s w).
  { destruct op; simpl in Ht; try discriminate; injection Ht as ->;
      simpl in Hop; unfold dropped in Hop;
      try (apply bind_Ok in Hop as (r & Hr & [= <-]));
      eauto using configureState_rest, addTimeout_rest, addOnEnter_rest, addOnState_rest,
        addOnExit_rest, removeTimeout_rest, removeOnEnter_rest, removeOnState_rest,
        removeOnExit_rest. }
  unfold rest_of in Hrest. injection Hrest as Hst Hb Ha Hc He Hd Hm Hse.
  repeat split; try done.
  - intros i Hi. apply (f_equal (fun l => l !! i)) in Hst.
    rewrite !list_lookup_insert_ne, !list_lookup_fmap in Hst by done.
    destruct (states (machine w') !! i), (states (machine w) !! i); simpl in Hst; congruence.
  - apply (f_equal length) in Hst. by rewrite !length_insert, !length_fmap in Hst.
  - unfold core. congruence.
Qed.

Lemma state_scoped_operations_touch_one_state_witness :
  match perform Arduino passive 0 (RemoveTimeout 1%N 100) (demo Arduino) with
  | Ok w' =>
      states (machine w') !! 0 = states (machine (demo Arduino)) !! 0 /\
      states (machine w') !! 2 = states (machine (demo Arduino)) !! 2
  | _ => False
  end.
Proof.
  destruct (perform Arduino passive 0 (RemoveTimeout 1%N 100) (demo Arduino))
    as [w'| |] eqn:H; [|vm_compute in H; discriminate..].
  destruct (state_scoped_operations_touch_one_state Arduino passive 0
              (RemoveTimeout 1%N 100) 1%N (demo Arduino) w' eq_refl H) as [Hst _].
  split; apply Hst; discriminate.
Defined.

(** ** The global handlers *)

Lemma with_machine_same_before w :
  with_machine (set_before (beforeStateChangeHandlers (machine w))) w = w.
Proof. by destruct w as [m t tr se]; destruct m. Qed.

Lemma with_machine_same_after w :
  with_machine (set_after (afterStateChangeHandlers (machine w))) w = w.
Proof. by destruct w as [m t tr se]; destruct m. Qed.

(** X10: [removeBeforeStateChangeHandler] and [removeAfterStateChangeHandler]
    either find no handler equal to the one given, answer false and leave
    the world as it was, or split the list at the first equal handler,
    answer true and store the list without that one handler, later
    duplicates staying in place; nothing but that list changes. *)
Theorem handler_removal_first_match (h : fnptr) (w : World) :
  (((h ∉ beforeStateChangeHandlers (machine w)) /\
    removeBeforeStateChangeHandler h w = (false, w)) \/
   (exists l1 l2,
      beforeStateChangeHandlers (machine w) = l1 ++ h :: l2 /\ (h ∉ l1) /\
      removeBeforeStateChangeHandler h w
        = (true, with_machine (set_before (l1 ++ l2)) w))) /\
  (((h ∉ afterStateChangeHandlers (machine w)) /\
    removeAfterStateChangeHandler h w = (false, w)) \/
   (exists l1 l2,
      afterStateChangeHandlers (machine w) = l1 ++ h :: l2 /\ (h ∉ l1) /\
      removeAfterStateChangeHandler h w
        = (true, with_machine (set_after (l1 ++ l2)) w))).
Proof.
  unfold removeBeforeStateChangeHandler, removeAfterStateChangeHandler. split.
  - destruct (list_find_split (fun g : fnptr => g = h) (beforeStateChangeHandlers (machine w)))
      as [[-> Hall]|(l1 & x & l2 & Hl & -> & Hall & ->)].
    + left. split; [by apply Forall_ne_not_elem|done].
    + right. exists l1, l2. split; [done|]. split; [by apply Forall_ne_not_elem|].
      f_equal. unfold with_machine. do 2 f_equal.
      unfold erase. by rewrite Hl, delete_middle.
  - destruct (list_find_split (fun g : fnptr => g = h) (afterStateChangeHandlers (machine w)))
      as [[-> Hall]|(l1 & x & l2 & Hl & -> & Hall & ->)].
    + left. split; [by apply Forall_ne_not_elem|done].
    + right. exists l1, l2. split; [done|]. split; [by apply Forall_ne_not_elem|].
      f_equal. unfold with_machine. do 2 f_equal.
      unfold erase. by rewrite Hl, delete_middle.
Qed.

(** The before-handlers of [demo] are [11; 12]. *)
Example removeBefore_first_of_two :
  removeBeforeStateChangeHandler 11%N (demo ESP)
    = (true, with_machine (set_before [12%N]) (demo ESP)) /\
  removeBeforeStateChangeHandler 13%N (demo ESP) = (false, demo ESP).
Proof. split; reflexivity. Qed.

(** ** Adding and then removing *)

Lemma list_find_snoc (f : fnptr) (l : list fnptr) :
  f ∉ l -> list_find (fun g => g = f) (l ++ [f]) = Some (length l, f).
Proof.
  induction l as [|a l IH]; intros Hf; simpl.
  - by rewrite decide_True.
  - apply not_elem_of_cons in Hf as [Hne Hf].
    rewrite decide_False by done. by rewrite (IH Hf).
Qed.

Lemma push_back_room {T : Type} p (l : list T) (x : T) :
  has_room p l -> push_back p l x = l ++ [x].
Proof.
  intros [Hv|Hlt]; unfold push_back; [by rewrite Hv|].
  destruct (has_vector p); [done|]. by rewrite decide_True.
Qed.

Lemma put_state_put_state s d1 d2 w :
  put_state s d2 (put_state s d1 w) = put_state s d2 w.
Proof.
  unfold put_state, with_machine, set_states; simpl.
  by rewrite list_insert_insert_eq.
Qed.

Lemma erase_snoc {T : Type} (l : list T) (x : T) : erase (length l) (l ++ [x]) = l.
Proof. unfold erase. rewrite delete_middle. apply app_nil_r. Qed.

(** X11: removing a callback right after adding it undoes the addition when the
    callback was not in the list before: on a valid state with room in the
    list, add then remove answers true and gives back the world as it was,
    for the enter, during and exit callbacks and for the two handler
    lists. *)
Theorem add_then_remove_restores p (s : uint8_t) (f : fnptr) (w : World)
    (d : StateDefinition) :
  isValidState s w = true -> f <> nullptr ->
  states (machine w) !! N.to_nat s = Some d ->
  ((f ∉ onEnters d) -> has_room p (onEnters d) ->
     (do r <- addOnEnter p s f w; removeOnEnter s f (snd r)) = Ok (true, w)) /\
  ((f ∉ onStates d) -> has_room p (onStates d) ->
     (do r <- addOnState p s f w; removeOnState s f (snd r)) = Ok (true, w)) /\
  ((f ∉ onExits d) -> has_room p (onExits d) ->
     (do r <- addOnExit p s f w; removeOnExit s f (snd r)) = Ok (true, w)) /\
  ((f ∉ beforeStateChangeHandlers (machine w)) ->
   has_room p (beforeStateChangeHandlers (machine w)) ->
     removeBeforeStateChangeHandler f (addBeforeStateChangeHandler p f w) = (true, w)) /\
  ((f ∉ afterStateChangeHandlers (machine w)) ->
   has_room p (afterStateChangeHandlers (machine w)) ->
     removeAfterStateChangeHandler f (addAfterStateChangeHandler p f w) = (true, w)).
Proof.
  intros Hv Hf Hd.
  assert (Hf' : (f =? nullptr)%N = false) by by apply N.eqb_neq.
  assert (Hlt : N.to_nat s < length (states (machine w))) by by eapply lookup_lt_Some.
  split; [|split; [|split; [|split]]]; intros Hnew Hroom.
  - unfold addOnEnter, removeOnEnter, state_at, isValidState in *. rewrite Hv, Hf', Hd; simpl.
    rewrite Hv; simpl. rewrite list_lookup_insert_eq by done; simpl.
    rewrite push_back_room, list_find_snoc, erase_snoc by done.
    rewrite put_state_put_state. do 2 f_equal.
    destruct d; simpl. by apply put_state_same.
  - unfold addOnState, removeOnState, state_at, isValidState in *. rewrite Hv, Hf', Hd; simpl.
    rewrite Hv; simpl. rewrite list_lookup_insert_eq by done; simpl.
    rewrite push_back_room, list_find_snoc, erase_snoc by done.
    rewrite put_state_put_state. do 2 f_equal.
    destruct d; simpl. by apply put_state_same.
  - unfold addOnExit, removeOnExit, state_at, isValidState in *. rewrite Hv, Hf', Hd; simpl.
    rewrite Hv; simpl. rewrite list_lookup_insert_eq by done; simpl.
    rewrite push_back_room, list_find_snoc, erase_snoc by done.
    rewrite put_state_put_state. do 2 f_equal.
    destruct d; simpl. by apply put_state_same.
  - unfold addBeforeStateChangeHandler, removeBeforeStateChangeHandler.
    rewrite Hf'; simpl.
    rewrite push_back_room, list_find_snoc by done. unfold with_machine; simpl.
    rewrite push_back_room, erase_snoc by done.
    f_equal. by destruct w as [m t tr se]; destruct m.
  - unfold addAfterStateChangeHandler, removeAfterStateChangeHandler.
    rewrite Hf'; simpl.
    rewrite push_back_room, list_find_snoc by done. unfold with_machine; simpl.
    rewrite push_back_room, erase_snoc by done.
    f_equal. by destruct w as [m t tr se]; destruct m.
Qed.

Lemma add_then_remove_restores_witness :
  (do r <- addOnEnter Arduino 1%N 32%N fresh3; removeOnEnter 1%N 32%N (snd r))
    = Ok (true, fresh3).
Proof.
  refine (proj1 (add_then_remove_restores Arduino 1%N 32%N fresh3
                   (mkStateDefinition [] [] [] []) eq_refl _ eq_refl) _ _).
  - discriminate.
  - intros Hin. by apply elem_of_nil in Hin.
  - right. simpl. unfold MAX_SIZE. lia.
Defined.

(** When the callback was already registered, add then remove takes out the
    earlier registration: the list [31; 32; 31] of [demo] becomes
    [32; 31; 31]. *)
Example add_then_remove_moves_a_duplicate :
  (do r <- addOnEnter ESP 1%N 31%N (demo ESP);
   do r' <- removeOnEnter 1%N 31%N (snd r);
   do d <- state_at 1%N (snd r');
   Ok (onEnters d))
  = Ok [32%N; 31%N; 31%N].
Proof. reflexivity. Qed.

(** ** The timers of the platforms without Ticker *)

Lemma timers_null_machine : machine_only timers_null.
Proof. intros w w' Hm HP. unfold timers_null. by rewrite <- Hm. Qed.

Lemma timers_null_emit e w : timers_null w -> timers_null (emit e w).
Proof. apply machine_only_emit, timers_null_machine. Qed.

Lemma timers_null_put_state s d' w :
  null_funcs (timeouts d') -> timers_null w -> timers_null (put_state s d' w).
Proof.
  intros Hd' HN i d Hi. simpl in Hi.
  apply list_lookup_insert_Some in Hi as [(_ & <- & _)|(Hne & Hi)]; [done|].
  by apply (HN i).
Qed.

Lemma timers_null_put_timeout s i ti ti' d w w' :
  states (machine w) !! N.to_nat s = Some d -> timeouts d !! i = Some ti ->
  (exists a b c, timer ti' = PollTimer a b c nullptr) ->
  put_timeout s i ti' w = Ok w' -> timers_null w -> timers_null w'.
Proof.
  intros Hd Hti Hnull H HN. unfold put_timeout, state_at in H. rewrite Hd in H.
  injection H as <-. apply timers_null_put_state; [|done]. simpl.
  apply Forall_insert; [by apply (HN _ _ Hd)|done].
Qed.

Lemma configured_timers_null p w w' :
  is_esp p = false ->
  configured p w w' -> timers_null w -> timers_null w'.
Proof.
  intros Hp.
  induction 1 as [w|w w1 s d d' f es _ IH Hv Hd Hf [_ He]
                  |w w1 l f _ IH Hf Hl|w w1 l f _ IH Hf Hl
                  |w w1 b _ IH|w w1 ms _ IH]; intros HN; try (by apply IH); [done|].
  apply (timers_null_machine (put_state s d' w1)); [done|].
  apply timers_null_put_state; [|by apply IH].
  apply Forall_forall. intros ti Hti. apply list_elem_of_In in Hti.
  apply He in Hti as [Hti|[_ Hnew]].
  - pose proof (IH HN _ _ Hd) as Hall. unfold null_funcs in Hall.
    rewrite Forall_forall in Hall.
    apply Hall. by apply list_elem_of_In.
  - rewrite Hnew. unfold new_timer. rewrite Hp. eauto.
Qed.

Section PollingTimers.

Variable p : Platform.
Hypothesis Hp : is_esp p = false.
Variable invoke : fnptr -> list uint8_t -> World -> result World.
Hypothesis Hpassive : returns_unchanged invoke.

Lemma null_onTimeout s i w w' :
  timers_null w -> onTimeout invoke s i w = Ok w' -> timers_null w'.
Proof.
  intros HN. unfold onTimeout.
  destruct (_ =? _)%N; [|by intros [= <-]].
  intros H. apply bind_Ok in H as (d & Hd & H). apply of_option_Ok in Hd.
  destruct (decide _); [|by injection H as <-].
  apply bind_Ok in H as (ti & Hti & H). apply of_option_Ok in Hti.
  apply bind_Ok in H as (w2 & Hput & H).
  eapply (passive_call invoke Hpassive _ timers_null_emit); [|exact H].
  eapply (timers_null_put_timeout _ _ ti); [| | |exact Hput|].
  - by destruct (debugEnabled (machine w)).
  - done.
  - pose proof (HN _ _ Hd) as Hall.
    exact (Forall_lookup_1 _ _ _ _ Hall Hti).
  - by destruct (debugEnabled (machine w)).
Qed.

Lemma null_timer_update s i w r :
  timers_null w -> TimerImplementation_update invoke s i w = Ok r -> timers_null (snd r).
Proof.
  intros HN. unfold TimerImplementation_update. intros H.
  apply bind_Ok in H as (d & Hd & H). apply of_option_Ok in Hd.
  apply bind_Ok in H as (ti & Hti & H). apply of_option_Ok in Hti.
  destruct (Forall_lookup_1 _ _ _ _ (HN _ _ Hd) Hti) as (a & b & c & Ht).
  rewrite Ht in H.
  destruct (c && _); [|by injection H as <-].
  apply bind_Ok in H as (w1 & Hput & H).
  apply (timers_null_put_timeout _ _ ti _ d) in Hput; [|done|done|simpl; eauto|done].
  simpl in H. by injection H as <-.
Qed.

Lemma null_poll_timers fuel w w' :
  timers_null w -> poll_timers invoke fuel w = Ok w' -> timers_null w'.
Proof.
  unfold poll_timers. apply for_loop_inv. clear w w'.
  intros j w w' HQ H.
  apply bind_Ok in H as (d & _ & H). apply bind_Ok in H as (ti & _ & H).
  destruct (active ti); [|by injection H as <-].
  apply bind_Ok in H as (r & Hr & H).
  apply null_timer_update in Hr; [|done].
  destruct (fst r); [by eapply null_onTimeout|by injection H as <-].
Qed.

Lemma null_stop_timers w w' : timers_null w -> stop_timers w = Ok w' -> timers_null w'.
Proof.
  intros HN H. unfold stop_timers in H.
  apply bind_Ok in H as (d & Hd & [= <-]). apply of_option_Ok in Hd.
  apply (timers_null_machine (put_state (currentState (machine w))
           (set_timeouts (cancel <$> timeouts d) d) w)); [done|].
  apply timers_null_put_state; [|done]. simpl.
  apply Forall_fmap. pose proof (HN _ _ Hd) as Hall. unfold null_funcs in Hall.
  rewrite Forall_forall in Hall |- *. intros ti Hti.
  destruct (Hall ti Hti) as (a & b & c & Ht). simpl. rewrite Ht. simpl. eauto.
Qed.

Lemma null_start_timers w w' : timers_null w -> start_timers p w = Ok w' -> timers_null w'.
Proof.
  intros HN H. apply start_timers_machine in H as (d & Hd & Hm).
  eapply timers_null_machine; [symmetry; exact Hm|].
  apply timers_null_put_state; [|done]. simpl.
  apply Forall_forall. intros ti Hti. apply list_elem_of_In in Hti.
  apply list_elem_of_lookup in Hti as (j & Hj).
  rewrite list_lookup_imap in Hj.
  destruct (timeouts d !! j) as [ti0|]; [|done]. injection Hj as <-.
  unfold arm. rewrite Hp. simpl. eauto.
Qed.

Lemma perform_timers_null fuel op w w' :
  timers_null w -> perform p invoke fuel op w = Ok w' -> timers_null w'.
Proof.
  intros HN Hop.
  destruct (quiet op) eqn:Hq.
  { apply quiet_configured in Hop; [|done]. by eapply configured_timers_null. }
  destruct op; simpl in Hq, Hop; try discriminate.
  - unfold setState in Hop.
    destruct (negb _); [by injection Hop as <-|].
    destruct (_ =? _)%N; [by injection Hop as <-|].
    apply bind_Ok in Hop as (w1 & H1 & H). apply bind_Ok in H as (w2 & H2 & H).
    apply bind_Ok in H as (w3 & H3 & H). apply bind_Ok in H as (w5 & H5 & H).
    apply bind_Ok in H as (w6 & H6 & H).
    eapply (passive_run_after invoke Hpassive _ timers_null_emit); [|exact H].
    eapply null_start_timers; [|exact H6].
    eapply (passive_run_enters invoke Hpassive _ timers_null_emit); [|exact H5].
    assert (HN3 : timers_null w3).
    { eapply (passive_run_exits invoke Hpassive _ timers_null_emit); [|exact H3].
      eapply null_stop_timers; [|exact H2].
      by eapply (passive_run_before invoke Hpassive _ timers_null_emit). }
    exact HN3.
  - unfold update in Hop. rewrite Hp in Hop.
    apply bind_Ok in Hop as (w1 & H1 & H). apply bind_Ok in H as (w2 & H2 & [= <-]).
    assert (HN2 : timers_null w2).
    { eapply (passive_run_onStates invoke Hpassive _ timers_null_emit); [|exact H2].
      by eapply null_poll_timers. }
    exact HN2.
  - by eapply null_onTimeout.
Qed.

End PollingTimers.

(** X12: on the platforms without Ticker, with callbacks that do not call back
    into the machine, every timer of a constructed machine has a null
    function and keeps one through every operation: the engine creates
    timers without a function and arms them with [once_ms(duration,
    nullptr)]. *)
Theorem polling_timers_have_no_function p invoke :
  is_esp p = false -> returns_unchanged invoke ->
  (forall n now w0, construct n now = Ok w0 -> timers_null w0) /\
  (forall fuel op w w',
     timers_null w -> perform p invoke fuel op w = Ok w' -> timers_null w').
Proof.
  intros Hp Hpassive. split.
  - intros n now w0 [= <-] i d Hi. simpl in Hi.
    apply lookup_replicate in Hi as [-> _]. constructor.
  - intros fuel op w w'. by apply perform_timers_null.
Qed.

Lemma polling_timers_have_no_function_witness :
  timers_null fresh3 /\
  match perform RP2040 passive 4 (AddTimeout 1%N 100 7%N) fresh3 with
  | Ok w1 => timers_null w1 /\
      match perform RP2040 passive 4 (SetState 1%N) w1 with
      | Ok w2 => timers_null w2
      | _ => False
      end
  | _ => False
  end.
Proof.
  destruct (polling_timers_have_no_function RP2040 passive eq_refl
              (fun f args w => eq_refl)) as [Hc Hop].
  pose proof (Hc 3%N 1000%Z fresh3 eq_refl) as H0.
  split; [exact H0|].
  destruct (perform RP2040 passive 4 (AddTimeout 1%N 100 7%N) fresh3) as [w1| |] eqn:H1;
    [|vm_compute in H1; discriminate..].
  pose proof (Hop 4 _ _ _ H0 H1) as HN1. split; [exact HN1|].
  destruct (perform RP2040 passive 4 (SetState 1%N) w1) as [w2| |] eqn:H2.
  - exact (Hop 4 _ _ _ HN1 H2).
  - vm_compute in H1. injection H1 as <-. vm_compute in H2. discriminate.
  - vm_compute in H1. injection H1 as <-. vm_compute in H2. discriminate.
Defined.

(** ** One round of [update] *)

(** X13: with callbacks that do not call back into the machine and fuel above
    the lengths of the lists, [update] returns; it has called every
    during-callback of the current state once, in registration order, with
    [(currentState)], and nothing else; the flag is cleared, the state ids
    and what is registered are as before. On the platforms without Ticker
    this is for timers with null functions, which is all there are. *)
Theorem update_runs_during_callbacks p invoke fuel (w : World) (d : StateDefinition) :
  returns_unchanged invoke ->
  states (machine w) !! N.to_nat (currentState (machine w)) = Some d ->
  length (onStates d) < fuel ->
  (is_esp p = false -> null_funcs (timeouts d) /\ length (timeouts d) < fuel) ->
  exists w',
    update p invoke fuel w = Ok w' /\
    trace w' = trace w ++ calls [currentState (machine w)] (onStates d) /\
    isStateChanged w' = false /\
    getCurrentState w' = currentState (machine w) /\
    getPreviousState w' = previousState (machine w) /\
    registry w' = registry w.
Proof.
  intros Hpassive Hd Hfuel Hpoll.
  assert (Hrun : exists w', update p invoke fuel w = Ok w' /\
            trace w' = trace w ++ calls [currentState (machine w)] (onStates d) /\
            core w' = (numStates (machine w), currentState (machine w),
                       previousState (machine w), false)).
  { unfold update. destruct (is_esp p) eqn:Hp.
    - simpl. rewrite (run_onStates_passive invoke Hpassive fuel w d Hd Hfuel); simpl.
      eexists; split; [reflexivity|]. by split.
    - destruct (Hpoll eq_refl) as [Hnull Hlen].
      destruct (poll_timers_idle invoke fuel (currentState (machine w)) (trace w)
                  (length (timeouts d)) (onStates d) w) as (w1 & H1 & Hidle); [|done|].
      { split; [done|]. split; [done|]. exists d. by repeat split. }
      rewrite H1; simpl. destruct Hidle as (Hs & Htr & d1 & Hd1 & _ & _ & Hos).
      rewrite <- Hs in Hd1.
      rewrite (run_onStates_passive invoke Hpassive fuel w1 d1 Hd1) by by rewrite Hos.
      simpl. eexists; split; [reflexivity|]. simpl. rewrite Htr, Hs, Hos.
      split; [done|].
      assert (Hc : core w1 = core w).
      { apply (stable_poll_timers invoke (fun w0 => core w0 = core w)) in H1; try done.
        - intros wa wb Hc _ H. by rewrite <- Hc.
        - intros f args wa wb Hi H. rewrite Hpassive in Hi. by injection Hi as <-. }
      unfold core in *. injection Hc as E1 E2 E3 _. simpl. by rewrite E1, E3, <- E2, Hs. }
  destruct Hrun as (w' & Hup & Htr & Hc). exists w'.
  split; [done|]. split; [done|].
  unfold core in Hc. injection Hc as _ E2 E3 E4.
  split; [done|]. split; [done|]. split; [done|].
  apply (stable_update invoke (fun w0 => registry w0 = registry w)) in Hup; try done.
  - intros wa wb _ Hr H. by rewrite <- Hr.
  - intros f args wa wb Hi H. rewrite Hpassive in Hi. by injection Hi as <-.
Qed.

Lemma update_runs_during_callbacks_witness :
  exists w',
    update ESP passive 4 (demo ESP) = Ok w' /\
    trace w' = [Call 23%N [0%N]] /\ isStateChanged w' = false.
Proof.
  destruct (update_runs_during_callbacks ESP passive 4 (demo ESP)
              (mkStateDefinition
                 [mkTimeoutInfo 50 41%N (new_timer ESP) false 0%N 0%N]
                 [] [23%N] [21%N; 22%N])
              (fun f args w => eq_refl) eq_refl)
    as (w' & H & Htr & Hflag & _); [simpl; lia|discriminate|].
  exists w'. split; [exact H|]. split; [exact Htr|exact Hflag].
Defined.

(** ** SimpleArray against the lists of the engine *)

Lemma shift_down_length {T : Type} fuel : forall j bound (its : list T),
  length (shift_down fuel j bound its) = length its.
Proof.
  induction fuel as [|fuel IH]; intros j bound its; simpl; [done|].
  destruct (decide _); [|done]. destruct (its !! S j); [|done].
  by rewrite IH, length_insert.
Qed.

Lemma shift_down_take {T : Type} fuel : forall j bound (its : list T),
  bound < length its -> j <= bound -> bound - j <= fuel ->
  take bound (shift_down fuel j bound its)
    = take j its ++ take (bound - j) (drop (S j) its).
Proof.
  induction fuel as [|fuel IH]; intros j bound its Hb Hj Hf; simpl.
  - replace (bound - j) with 0 by lia. replace j with bound by lia.
    by rewrite take_0, app_nil_r.
  - destruct (decide (j < bound)) as [Hlt|Hge].
    + destruct (lookup_lt_is_Some_2 its (S j)) as [x Hx]; [lia|]. rewrite Hx.
      rewrite IH by (rewrite ?length_insert; lia).
      assert (Hjx : <[j := x]> its !! j = Some x)
        by (apply list_lookup_insert_eq; lia).
      rewrite (take_S_r _ _ _ Hjx), take_insert_ge by lia.
      rewrite drop_insert_lt by lia.
      rewrite (drop_S its x (S j) Hx).
      replace (bound - j) with (S (bound - S j)) by lia. simpl.
      by rewrite <- app_assoc.
    + replace (bound - j) with 0 by lia. replace j with bound by lia.
      by rewrite take_0, app_nil_r.
Qed.

Lemma delete_take {T : Type} (l : list T) i n :
  i < n -> n <= length l ->
  delete i (take n l) = take i l ++ take (n - 1 - i) (drop (S i) l).
Proof.
  intros Hi Hn. rewrite delete_take_drop, take_take.
  replace (i `min` n) with i by lia. f_equal.
  rewrite take_drop_commute. f_equal. f_equal. lia.
Qed.

(** X14: [SimpleArray::push_back] stores the item after the items in use and
    answers true while fewer than [MAX_SIZE] are in use, and answers false
    and changes nothing when the array is full. On the items in use it is the
    [push_back] of the engine's lists on the platform without vectors, and
    the stored items can be read back by index. *)
Theorem SimpleArray_push_back_refines {T : Type} (a : SimpleArray T) (item : T) :
  SimpleArray_ok a ->
  SimpleArray_ok (snd (SimpleArray_push_back a item)) /\
  fst (SimpleArray_push_back a item) = bool_decide (count a < MAX_SIZE) /\
  SimpleArray_contents (snd (SimpleArray_push_back a item))
    = push_back Arduino (SimpleArray_contents a) item /\
  (forall i, i < SimpleArray_size a ->
     SimpleArray_at (snd (SimpleArray_push_back a item)) i = SimpleArray_at a i) /\
  (count a < MAX_SIZE ->
     SimpleArray_at (snd (SimpleArray_push_back a item)) (count a) = Ok item).
Proof.
  intros [Hlen Hcount].
  unfold SimpleArray_push_back, SimpleArray_contents, SimpleArray_at, SimpleArray_size,
    SimpleArray_ok, push_back; simpl.
  rewrite length_take_le by lia.
  destruct (decide (count a < MAX_SIZE)) as [Hlt|Hge]; simpl.
  - split; [split; [by rewrite length_insert|lia]|].
    split; [by rewrite bool_decide_eq_true_2|].
    split; [|split].
    + assert (Hx : <[count a := item]> (items a) !! count a = Some item)
        by (apply list_lookup_insert_eq; lia).
      by rewrite (take_S_r _ _ _ Hx), take_insert_ge.
    + intros i Hi. by rewrite list_lookup_insert_ne by lia.
    + intros _. by rewrite list_lookup_insert_eq by lia.
  - split; [done|]. split; [by rewrite bool_decide_eq_false_2|].
    split; [done|]. split; [done|lia].
Qed.

Lemma SimpleArray_push_back_refines_witness :
  SimpleArray_contents (snd (SimpleArray_push_back (SimpleArray_new 0%N) 7%N))
    = push_back Arduino (SimpleArray_contents (SimpleArray_new 0%N)) 7%N.
Proof.
  refine (proj1 (proj2 (proj2 (SimpleArray_push_back_refines (SimpleArray_new 0%N) 7%N _)))).
  split; [reflexivity|simpl; lia].
Defined.

(** X15: [SimpleArray::erase] of an item in use moves the later items in use one
    slot down, answers true and counts one item less: on the items in use it
    is the [erase] of the engine's lists. For a pointer past the items in
    use it answers false and changes nothing. *)
Theorem SimpleArray_erase_refines {T : Type} (a : SimpleArray T) (index : nat) :
  SimpleArray_ok a ->
  (index < count a ->
     fst (SimpleArray_erase a index) = true /\
     SimpleArray_ok (snd (SimpleArray_erase a index)) /\
     SimpleArray_size (snd (SimpleArray_erase a index)) = count a - 1 /\
     SimpleArray_contents (snd (SimpleArray_erase a index))
       = erase index (SimpleArray_contents a)) /\
  (count a <= index -> SimpleArray_erase a index = (false, a)).
Proof.
  intros [Hlen Hcount]. unfold SimpleArray_erase. split.
  - intros Hi. rewrite decide_True by done. simpl.
    split; [done|]. split; [split; simpl; [by rewrite shift_down_length|lia]|].
    split; [done|].
    unfold SimpleArray_contents, erase; simpl.
    rewrite shift_down_take by lia.
    by rewrite delete_take by lia.
  - intros Hge. by rewrite decide_False by lia.
Qed.

Lemma SimpleArray_erase_refines_witness :
  SimpleArray_contents
    (snd (SimpleArray_erase (mkSimpleArray [31%N; 32%N; 31%N; 0%N; 0%N; 0%N; 0%N; 0%N] 3) 0))
  = erase 0 (SimpleArray_contents
               (mkSimpleArray [31%N; 32%N; 31%N; 0%N; 0%N; 0%N; 0%N; 0%N] 3)).
Proof.
  refine (proj2 (proj2 (proj2 (proj1
            (SimpleArray_erase_refines
               (mkSimpleArray [31%N; 32%N; 31%N; 0%N; 0%N; 0%N; 0%N; 0%N] 3) 0 _) _)))).
  - split; [reflexivity|simpl; unfold MAX_SIZE; lia].
  - simpl. lia.
Defined.

(** The array after the erase above: the item in the last used slot is
    still in its slot, outside the items in use. *)
Example SimpleArray_erase_slots :
  SimpleArray_erase (mkSimpleArray [31%N; 32%N; 31%N; 0%N; 0%N; 0%N; 0%N; 0%N] 3) 0
  = (true, mkSimpleArray [32%N; 31%N; 31%N; 0%N; 0%N; 0%N; 0%N; 0%N] 2).
Proof. reflexivity. Qed.

(** ** The first state *)

Lemma perform_all_configured p invoke fuel ops : forall w w',
  Forall (fun op => quiet op = true) ops ->
  perform_all p invoke fuel ops w = Ok w' -> configured p w w'.
Proof.
  induction ops as [|op ops IH]; intros w w' Hq; simpl.
  - intros [= <-]. constructor.
  - inversion Hq as [|? ? Hop Hops]; subst. intros H.
    apply bind_Ok in H as (w1 & H1 & H).
    eapply configured_trans; [by eapply quiet_configured|by apply IH].
Qed.

Lemma configured_all_inactive p w w' :
  configured p w w' -> all_inactive w -> all_inactive w'.
Proof.
  induction 1 as [w|w w1 s d d' f es _ IH Hv Hd Hf [_ He]
                  |w w1 l f _ IH Hf Hl|w w1 l f _ IH Hf Hl
                  |w w1 b _ IH|w w1 ms _ IH]; intros HA; try (by apply IH); [done|].
  intros i d0 ti Hi Hti. simpl in Hi.
  apply list_lookup_insert_Some in Hi as [(_ & <- & _)|(Hne & Hi)].
  - apply He in Hti as [Hti|[Hoff _]]; [|done]. by apply (IH HA (N.to_nat s) d).
  - by apply (IH HA i d0).
Qed.

(** X16: a constructed machine is already in state 0, with the flag set. After
    any configuration (adds, removes, [configureState], handlers, debug
    switch) it still is, no timeout is active, and a first [setState(0)]
    does nothing at all: state 0 is not entered, its enter callbacks and
    the handlers do not run and its timeouts are not armed. *)
Theorem initial_state_is_never_entered p invoke fuel n now ops w0 w :
  construct n now = Ok w0 ->
  Forall (fun op => quiet op = true) ops ->
  perform_all p invoke fuel ops w0 = Ok w ->
  getCurrentState w = 0%N /\ getPreviousState w = 0%N /\ isStateChanged w = true /\
  all_inactive w /\
  forall invoke' fuel', setState p invoke' fuel' 0%N w = Ok w.
Proof.
  intros [= <-] Hq Hops.
  apply perform_all_configured in Hops; [|done].
  pose proof (configured_frame _ _ _ Hops) as [Hc _].
  unfold core in Hc; simpl in Hc. injection Hc as _ E2 E3 E4.
  split; [done|]. split; [done|]. split; [done|]. split.
  - apply (configured_all_inactive _ _ _ Hops).
    intros i d ti Hi Hti. simpl in Hi.
    apply lookup_replicate in Hi as [-> _]. by apply elem_of_nil in Hti.
  - intros invoke' fuel'. unfold setState.
    destruct (negb _); [done|]. by rewrite E2.
Qed.

Lemma initial_state_is_never_entered_witness :
  match perform_all ESP passive 0
          [ConfigureState 0%N 500 21%N 22%N 23%N 24%N; AddBeforeStateChangeHandler 11%N]
          fresh3 with
  | Ok w => all_inactive w /\ setState ESP passive 4 0%N w = Ok w
  | _ => False
  end.
Proof.
  destruct (perform_all ESP passive 0
              [ConfigureState 0%N 500 21%N 22%N 23%N 24%N; AddBeforeStateChangeHandler 11%N]
              fresh3) as [w| |] eqn:H; [|vm_compute in H; discriminate..].
  destruct (initial_state_is_never_entered ESP passive 0 3%N 1000%Z
              [ConfigureState 0%N 500 21%N 22%N 23%N 24%N; AddBeforeStateChangeHandler 11%N]
              fresh3 w eq_refl ltac:(repeat constructor) H) as (_ & _ & _ & Hoff & Hset).
  split; [exact Hoff|apply Hset].
Defined.

(** ** The debug output *)

Lemma configured_serial p w w' : configured p w w' -> serial w' = serial w.
Proof. induction 1; simpl; congruence. Qed.

Lemma quiet_keeps_debug p invoke fuel op w w' :
  quiet op = true -> (forall b, op <> SetDebug b) ->
  perform p invoke fuel op w = Ok w' ->
  debugEnabled (machine w') = debugEnabled (machine w).
Proof.
  intros Hq Hop H.
  destruct (target op) as [s|] eqn:Ht.
  - assert (Hrest : rest_of s w' = rest_of s w).
    { destruct op; simpl in Ht; try discriminate; injection Ht as ->;
        simpl in H; unfold dropped in H;
        try (apply bind_Ok in H as (r & Hr & [= <-]));
        eauto using configureState_rest, addTimeout_rest, addOnEnter_rest, addOnState_rest,
          addOnExit_rest, removeTimeout_rest, removeOnEnter_rest, removeOnState_rest,
          removeOnExit_rest. }
    unfold rest_of in Hrest. by injection Hrest.
  - destruct op; simpl in Hq, Ht, H; try discriminate; injection H as <-.
    + unfold addBeforeStateChangeHandler. by destruct (_ =? _)%N.
    + unfold addAfterStateChangeHandler. by destruct (_ =? _)%N.
    + unfold removeBeforeStateChangeHandler. by destruct (list_find _ _) as [[??]|].
    + unfold removeAfterStateChangeHandler. by destruct (list_find _ _) as [[??]|].
    + by destruct (Hop enable).
    + done.
Qed.

(** X17: with the debug switch off and callbacks that do not call back into the
    machine, no operation writes a debug line, and none but [setDebug]
    turns the switch on. *)
Theorem debug_off_is_silent p invoke fuel op w w' :
  returns_unchanged invoke ->
  debugEnabled (machine w) = false ->
  (forall b, op <> SetDebug b) ->
  perform p invoke fuel op w = Ok w' ->
  serial w' = serial w /\ debugEnabled (machine w') = false.
Proof.
  intros Hpassive Hoff Hop H.
  destruct (quiet op) eqn:Hq.
  { split.
    - apply quiet_configured in H; [|done]. by eapply configured_serial.
    - by rewrite (quiet_keeps_debug _ _ _ _ _ _ Hq Hop H). }
  set (Q := fun w0 : World => serial w0 = serial w /\ debugEnabled (machine w0) = false).
  assert (HQe : forall e w0, Q w0 -> Q (emit e w0)) by done.
  assert (HQ : Q w) by done.
  assert (Hto : forall s i w0 w1, Q w0 -> onTimeout invoke s i w0 = Ok w1 -> Q w1).
  { intros s i w0 w1 [Hs Hd]. unfold onTimeout.
    destruct (_ =? _)%N; [|by intros [= <-]].
    intros H0. apply bind_Ok in H0 as (d & _ & H0).
    destruct (decide _); [|by injection H0 as <-].
    apply bind_Ok in H0 as (ti & _ & H0). apply bind_Ok in H0 as (w2 & Hput & H0).
    eapply (passive_call invoke Hpassive Q HQe); [|exact H0].
    rewrite Hd in Hput. unfold put_timeout in Hput.
    apply bind_Ok in Hput as (d0 & _ & [= <-]). by split. }
  destruct op; simpl in Hq, H; try discriminate.
  - unfold setState in H.
    destruct (negb _); [by injection H as <-|].
    destruct (_ =? _)%N; [by injection H as <-|].
    apply bind_Ok in H as (w1 & H1 & H). apply bind_Ok in H as (w2 & H2 & H).
    apply bind_Ok in H as (w3 & H3 & H). apply bind_Ok in H as (w5 & H5 & H).
    apply bind_Ok in H as (w6 & H6 & H).
    eapply (passive_run_after invoke Hpassive Q HQe); [|exact H].
    assert (HQ5 : Q w5).
    { eapply (passive_run_enters invoke Hpassive Q HQe); [|exact H5].
      assert (HQ3 : Q w3); [|exact HQ3].
      eapply (passive_run_exits invoke Hpassive Q HQe); [|exact H3].
      assert (HQ1 : Q w1) by by eapply (passive_run_before invoke Hpassive Q HQe).
      unfold stop_timers in H2. apply bind_Ok in H2 as (d & _ & [= <-]). exact HQ1. }
    destruct HQ5 as [Hs5 Hd5]. unfold start_timers in H6.
    apply bind_Ok in H6 as (d & _ & [= <-]). rewrite Hd5. by split.
  - unfold update in H.
    apply bind_Ok in H as (w1 & H1 & H). apply bind_Ok in H as (w2 & H2 & [= <-]).
    assert (HQ2 : Q w2); [|exact HQ2].
    eapply (passive_run_onStates invoke Hpassive Q HQe); [|exact H2].
    destruct (is_esp p); [by injection H1 as <-|].
    revert H1. unfold poll_timers. apply for_loop_inv; [|done].
    intros j wa wb HQa Hb.
    apply bind_Ok in Hb as (d & _ & Hb). apply bind_Ok in Hb as (ti & _ & Hb).
    destruct (active ti); [|by injection Hb as <-].
    apply bind_Ok in Hb as (r & Hr & Hb).
    assert (HQr : Q (snd r)).
    { unfold TimerImplementation_update in Hr.
      apply bind_Ok in Hr as (d0 & _ & Hr). apply bind_Ok in Hr as (ti0 & _ & Hr).
      destruct (timer ti0) as [|a b c f]; [by injection Hr as <-|].
      destruct (c && _); [|by injection Hr as <-].
      apply bind_Ok in Hr as (wc & Hput & Hr).
      unfold put_timeout in Hput. apply bind_Ok in Hput as (d1 & _ & [= <-]).
      destruct (f =? nullptr)%N; [by injection Hr as <-|].
      apply bind_Ok in Hr as (wd & Hc & [= <-]). simpl.
      by eapply (passive_call invoke Hpassive Q HQe); [|exact Hc]. }
    destruct (fst r); [by eapply Hto|by injection Hb as <-].
  - by eapply Hto.
Qed.

Lemma debug_off_is_silent_witness :
  match perform RP2040 passive 4 (SetState 1%N) (demo RP2040) with
  | Ok w' => serial w' = [] /\ debugEnabled (machine w') = false
  | _ => False
  end.
Proof.
  destruct (perform RP2040 passive 4 (SetState 1%N) (demo RP2040)) as [w'| |] eqn:H;
    [|vm_compute in H; discriminate..].
  apply (debug_off_is_silent RP2040 passive 4 (SetState 1%N) (demo RP2040) w'
           (fun f args w => eq_refl) eq_refl); [discriminate|exact H].
Defined.

(** With the switch on, a transition writes one line for every timeout it
    arms. *)
Example debug_on_reports_armed_timeouts :
  (do w <- setState ESP passive 4 1%N (setDebug true (demo ESP)); Ok (serial w))
  = Ok [TimeoutSet 1%N 0 100; TimeoutSet 1%N 1 0].
Proof. reflexivity. Qed.

(** ** Registration order *)




